(** * Sandbox orchestrator: sessions and droplet lifecycle

    A shallow embedding of [app/auth.py], [app/droplet.py] and the
    network-config endpoint of [app/main.py], with the properties the
    design document states about them.

    - [Clock]: naive UTC datetimes, [isoformat] and the string order the
      session code compares timestamps with.
    - [Auth]: the session store ([sessions.json]) and its operations.
    - [Py]: the fragment of JSON values and of Python's dynamic
      operations ([dict.get], truthiness, subscripts) the droplet manager
      uses on provider responses.
    - [Droplet]: [DropletManager] over an arbitrary provider, with the
      log of the requests it issues.
    - [Main]: [update_network_config]. *)

From Stdlib Require Import ZArith Lia Bool List String Ascii.
From stdpp Require Import gmap strings list fin_maps pretty.

Open Scope string_scope.

(* ===================================================================== *)
(** ** Clock: [datetime], [isoformat], [timedelta(hours=...)]            *)
(* ===================================================================== *)

Module Clock.
Local Open Scope N_scope.

(** A naive [datetime.datetime], as [datetime.utcnow()] returns it. *)
Record datetime := mk_datetime {
  year : N; month : N; day : N;
  hour : N; minute : N; second : N; microsecond : N
}.

Definition is_leap (y : N) : bool :=
  (y mod 4 =? 0)%N && (negb (y mod 100 =? 0)%N || (y mod 400 =? 0)%N).

Definition days_in_month (y m : N) : N :=
  (match m with
   | 2 => if is_leap y then 29 else 28
   | 4 | 6 | 9 | 11 => 30
   | _ => 31
   end)%N.

Definition MINYEAR : N := 1.
Definition MAXYEAR : N := 9999.

(** The range checks of the [datetime] constructor. *)
Definition datetime_ok (d : datetime) : bool :=
  (MINYEAR <=? year d)%N && (year d <=? MAXYEAR)%N &&
  (1 <=? month d)%N && (month d <=? 12)%N &&
  (1 <=? day d)%N && (day d <=? days_in_month (year d) (month d))%N &&
  (hour d <? 24)%N && (minute d <? 60)%N && (second d <? 60)%N &&
  (microsecond d <? 1000000)%N.

(** *** [isoformat] *)

Definition digit (n : N) : ascii := ascii_of_N (48 + n).

(** ["%02d"], ["%04d"], ["%06d"] *)
Definition pad2 (n : N) : string :=
  String (digit (n / 10)) (String (digit (n mod 10)) EmptyString).
Definition pad4 (n : N) : string := pad2 (n / 100) ++ pad2 (n mod 100).
Definition pad6 (n : N) : string := pad2 (n / 10000) ++ pad4 (n mod 10000).

(** [datetime.isoformat()]: ["YYYY-MM-DDTHH:MM:SS"], followed by
    [".ffffff"] only when the microsecond field is not 0. *)
Definition isoformat (d : datetime) : string :=
  pad4 (year d) ++ "-" ++ pad2 (month d) ++ "-" ++ pad2 (day d) ++ "T" ++
  pad2 (hour d) ++ ":" ++ pad2 (minute d) ++ ":" ++ pad2 (second d) ++
  (if (microsecond d =? 0)%N then "" else "." ++ pad6 (microsecond d)).

(** *** [datetime + timedelta(hours=h)] *)

(** The day after; [None] is Python's [OverflowError] past year 9999. *)
Definition next_day (d : datetime) : option datetime :=
  if (day d <? days_in_month (year d) (month d))%N then
    Some (mk_datetime (year d) (month d) (day d + 1)
                      (hour d) (minute d) (second d) (microsecond d))
  else if (month d <? 12)%N then
    Some (mk_datetime (year d) (month d + 1) 1
                      (hour d) (minute d) (second d) (microsecond d))
  else if (year d <? MAXYEAR)%N then
    Some (mk_datetime (year d + 1) 1 1
                      (hour d) (minute d) (second d) (microsecond d))
  else None.

Fixpoint add_days (n : nat) (d : datetime) : option datetime :=
  match n with
  | O => Some d
  | S n' => match next_day d with
            | Some d' => add_days n' d'
            | None => None
            end
  end.

Definition add_hours (d : datetime) (h : N) : option datetime :=
  let total := hour d + h in
  add_days (N.to_nat (total / 24))
           (mk_datetime (year d) (month d) (day d)
                        (total mod 24) (minute d) (second d) (microsecond d)).

(** *** The order on datetimes *)

Definition lex (c1 c2 : comparison) : comparison :=
  match c1 with Eq => c2 | _ => c1 end.

Definition datetime_compare (a b : datetime) : comparison :=
  lex (year a ?= year b)%N
 (lex (month a ?= month b)%N
 (lex (day a ?= day b)%N
 (lex (hour a ?= hour b)%N
 (lex (minute a ?= minute b)%N
 (lex (second a ?= second b)%N
      (microsecond a ?= microsecond b)%N))))).

(** [a <= b] on datetimes. *)
Definition datetime_le (a b : datetime) : Prop := datetime_compare a b <> Gt.

(** A datetime as one number, fields weighted by their ranges. *)
Definition rank (d : datetime) : N :=
  1000000 * (60 * (60 * (24 * (32 * (13 * year d + month d) + day d)
                         + hour d) + minute d) + second d) + microsecond d.

(** Python's [<] and [>] on [str]: code point order, which on the ASCII
    strings of this program is [String.compare]. *)
Definition str_lt (s t : string) : bool := String.ltb s t.
Definition str_gt (s t : string) : bool := String.ltb t s.

End Clock.

(* ===================================================================== *)
(** ** Auth: the session store of [app/auth.py]                          *)
(* ===================================================================== *)

Module Auth.
Import Clock.

Definition SESSION_DURATION_HOURS : N := 24.

(** A session record is the dict
    [{"user": .., "created_at": .., "expires_at": ..}]; the store is the
    dict from token digests to session records. *)
Abbreviation session := (gmap string string).
Abbreviation sessions := (gmap string (gmap string string)).

(** [sessions.json] in the data directory: absent, present with text that
    [json.loads] rejects, or present with a stored dict. *)
Inductive sessions_file :=
| Missing
| Malformed
| Stored (content : sessions).

(** [_load_sessions]: [{}] when the file is absent or does not parse. *)
Definition _load_sessions (f : sessions_file) : sessions :=
  match f with
  | Stored content => content
  | Malformed => ∅
  | Missing => ∅
  end.

(** [_save_sessions]: the file then holds exactly the dict given. *)
Definition _save_sessions (s : sessions) : sessions_file := Stored s.

(** [data.get("expires_at", "")] *)
Definition get_expires_at (data : session) : string :=
  default "" (data !! "expires_at").

(** [_clean_expired_sessions], with the reading [now] of
    [datetime.utcnow()] it takes: keeps the entries whose [expires_at]
    is, as a string, greater than [now.isoformat()]. *)
Definition _clean_expired_sessions (now : datetime) (s : sessions) : sessions :=
  filter (λ kv, str_gt (get_expires_at kv.2) (isoformat now) = true) s.

Section WithDigest.

(** [hashlib.sha256(s.encode()).hexdigest()] *)
Variable sha256_hexdigest : string -> string.

(** [create_session]. [session_id] is the draw of
    [secrets.token_urlsafe(32)]; [t_clean], [t_expiry], [t_created] are
    the three readings of [datetime.utcnow()], in program order. [None]
    is the [OverflowError] of the [timedelta] addition. *)
Definition create_session (user session_id : string)
    (t_clean t_expiry t_created : datetime) (f : sessions_file)
  : option (string * sessions_file) :=
  let session_hash := sha256_hexdigest session_id in
  let s := _load_sessions f in
  let s := _clean_expired_sessions t_clean s in
  match add_hours t_expiry SESSION_DURATION_HOURS with
  | None => None
  | Some expires_at =>
      let s := <[session_hash :=
                   {[ "user" := user;
                      "created_at" := isoformat t_created;
                      "expires_at" := isoformat expires_at ]} : session]> s in
      Some (session_id, _save_sessions s)
  end.

(** [verify_session], with the clock reading [now] it takes when the
    record exists. Returns the answer and the file afterwards. *)
Definition verify_session (session_id : string) (now : datetime)
    (f : sessions_file) : bool * sessions_file :=
  if decide (session_id = "") then (false, f)
  else
    let session_hash := sha256_hexdigest session_id in
    let s := _load_sessions f in
    match s !! session_hash with
    | None => (false, f)
    | Some data =>
        let expires_at := get_expires_at data in
        if str_lt expires_at (isoformat now) then
          (false, _save_sessions (delete session_hash s))
        else (true, f)
    end.

(** [get_session_user]. It reads no clock and never calls
    [_save_sessions]: the file afterwards is the file before. *)
Definition get_session_user (session_id : string) (f : sessions_file)
  : option string * sessions_file :=
  if decide (session_id = "") then (None, f)
  else
    let session_hash := sha256_hexdigest session_id in
    let s := _load_sessions f in
    match s !! session_hash with
    | Some data => if decide (data = ∅) then (None, f) else (data !! "user", f)
    | None => (None, f)
    end.

(** [revoke_session] *)
Definition revoke_session (session_id : string) (f : sessions_file)
  : bool * sessions_file :=
  if decide (session_id = "") then (false, f)
  else
    let session_hash := sha256_hexdigest session_id in
    let s := _load_sessions f in
    match s !! session_hash with
    | Some _ => (true, _save_sessions (delete session_hash s))
    | None => (false, f)
    end.

End WithDigest.

(** [revoke_all_sessions]: writes ["{}"] if the file exists. *)
Definition revoke_all_sessions (f : sessions_file) : sessions_file :=
  match f with
  | Missing => Missing
  | Malformed => Stored ∅
  | Stored _ => Stored ∅
  end.

End Auth.

(* ===================================================================== *)
(** ** Timeline: datetimes as microseconds, as [timedelta] counts them   *)
(* ===================================================================== *)

Module Timeline.
Import Clock.
Local Open Scope N_scope.

(** [datetime._days_before_year]: the days before January 1st of [year]. *)
Definition days_before_year (year : N) : N :=
  let y := year - 1 in y * 365 + y / 4 + y / 400 - y / 100.

(** The days of the first [k] months of [year]. *)
Fixpoint days_in_months (year : N) (k : nat) : N :=
  match k with
  | O => 0
  | S k' => days_in_months year k' + days_in_month year (N.of_nat k)
  end.

(** [datetime._days_before_month]: the days of [year] before the first
    day of [month]. *)
Definition days_before_month (year month : N) : N :=
  days_in_months year (N.to_nat (month - 1)).

(** [date.toordinal()]: day 1 is January 1st of year 1. *)
Definition toordinal (d : datetime) : N :=
  days_before_year (year d) + days_before_month (year d) (month d) + day d.

(** The microseconds from the start of day 0 to [d]: the scale on which
    [datetime + timedelta] adds. *)
Definition to_microseconds (d : datetime) : N :=
  1000000 * (60 * (60 * (24 * toordinal d + hour d) + minute d) + second d)
  + microsecond d.

(** [timedelta(hours=1)] in microseconds. *)
Definition HOUR : N := 3600000000.

End Timeline.

(* ===================================================================== *)
(** ** Sequences of calls on the session store                           *)
(* ===================================================================== *)

Module AuthRuns.
Import Clock Auth.

(** The record [create_session] stores. *)
Definition new_session (user : string) (t_created expires_at : datetime) : session :=
  {[ "user" := user;
     "created_at" := isoformat t_created;
     "expires_at" := isoformat expires_at ]}.

(** The record's [expires_at] is the timestamp of an instant the clock
    reading [now] is past. *)
Definition expired_at (data : session) (now : datetime) : Prop :=
  exists e, datetime_ok e = true /\
            data !! "expires_at" = Some (isoformat e) /\
            datetime_compare e now = Lt.

(** Calls on the store, with the random draws and clock readings they
    take, and the file they leave. *)
Inductive call :=
| CreateSession (user session_id : string) (t_clean t_expiry t_created : datetime)
| VerifySession (session_id : string) (now : datetime)
| GetSessionUser (session_id : string)
| RevokeSession (session_id : string)
| RevokeAllSessions.

Definition after_call (sha256_hexdigest : string -> string) (c : call)
    (f : sessions_file) : sessions_file :=
  match c with
  | CreateSession user session_id t_clean t_expiry t_created =>
      match create_session sha256_hexdigest user session_id
                           t_clean t_expiry t_created f with
      | Some (_, f') => f'
      | None => f
      end
  | VerifySession session_id now => (verify_session sha256_hexdigest session_id now f).2
  | GetSessionUser session_id => (get_session_user sha256_hexdigest session_id f).2
  | RevokeSession session_id => (revoke_session sha256_hexdigest session_id f).2
  | RevokeAllSessions => revoke_all_sessions f
  end.

Definition after_calls (sha256_hexdigest : string -> string) (cs : list call)
    (f : sessions_file) : sessions_file :=
  fold_left (fun f c => after_call sha256_hexdigest c f) cs f.

(** A call that does not revoke the session of token [session_id]. *)
Definition leaves_alone (session_id : string) (c : call) : Prop :=
  match c with
  | RevokeSession revoked => revoked = "" \/ revoked <> session_id
  | RevokeAllSessions => False
  | _ => True
  end.

(** The record [data] at key [k] is the one a [create_session] call of
    [cs] stored, and no call after that one revoked its session. *)
Definition made_by (sha256_hexdigest : string -> string) (cs : list call)
    (k : string) (data : session) : Prop :=
  exists before after user session_id t_clean t_expiry t_created e,
    cs = (before ++ CreateSession user session_id t_clean t_expiry t_created :: after)%list /\
    Forall (leaves_alone session_id) after /\
    k = sha256_hexdigest session_id /\
    add_hours t_expiry SESSION_DURATION_HOURS = Some e /\
    data = new_session user t_created e.

(** Sample data: clock readings, a digest and two stored records. *)
Definition t_2020 : datetime := mk_datetime 2020 1 1 0 0 0 0.
Definition t_noon : datetime := mk_datetime 2024 5 1 12 0 0 0.
Definition t_noon_next_day : datetime := mk_datetime 2024 5 2 12 0 0 0.
Definition t_later : datetime := mk_datetime 2024 5 3 9 30 0 250000.

Definition plain_digest (s : string) : string := s.

Definition stale_record : session := new_session "admin" t_2020 t_2020.
Definition fresh_record : session := new_session "admin" t_noon t_noon_next_day.

End AuthRuns.

(* ===================================================================== *)
(** ** Py: the JSON values and dynamic operations the manager uses       *)
(* ===================================================================== *)

Module Py.

Set Warnings "-register-all".
(** What [response.json()] can return, and what the manager builds. A
    dict is its list of items; a key is looked up at its first item.
    Numbers are the integers: the manager reads no other number. *)
Inductive json :=
| JNull
| JBool (b : bool)
| JInt (n : Z)
| JStr (s : string)
| JList (items : list json)
| JDict (fields : list (string * json)).
Set Warnings "register-all".

(** Exceptions. [HTTPStatusError] is what [response.raise_for_status()]
    raises, with [e.response.text] and [str(e)]; [OtherError] is any
    other exception (a connection error, a timeout, a body that does not
    decode, an [AttributeError] ...), with its class name and [str(e)]. *)
Inductive exn :=
| HTTPStatusError (response_text : string) (msg : string)
| OtherError (cls : string) (msg : string).

(** [str(e)] *)
Definition str_exn (e : exn) : string :=
  match e with
  | HTTPStatusError _ msg => msg
  | OtherError _ msg => msg
  end.

Inductive outcome (A : Type) :=
| Return (a : A)
| Raise (e : exn).
Arguments Return {A} a.
Arguments Raise {A} e.

Definition type_name (j : json) : string :=
  match j with
  | JNull => "NoneType"
  | JBool _ => "bool"
  | JInt _ => "int"
  | JStr _ => "str"
  | JList _ => "list"
  | JDict _ => "dict"
  end.

(** Truth value testing: [None], [False], [0], [""], [[]], [{}] are false. *)
Definition truthy (j : json) : bool :=
  match j with
  | JNull => false
  | JBool b => b
  | JInt n => negb (n =? 0)%Z
  | JStr s => negb (String.eqb s "")
  | JList items => match items with [] => false | _ :: _ => true end
  | JDict fields => match fields with [] => false | _ :: _ => true end
  end.

Fixpoint lookup_field (k : string) (fields : list (string * json)) : option json :=
  match fields with
  | [] => None
  | (k', v) :: rest => if String.eqb k' k then Some v else lookup_field k rest
  end.

(** [j.get(k, dflt)]: only a dict has [get]. *)
Definition py_get (j : json) (k : string) (dflt : json) : outcome json :=
  match j with
  | JDict fields => Return (default dflt (lookup_field k fields))
  | _ => Raise (OtherError "AttributeError"
                  ("'" ++ type_name j ++ "' object has no attribute 'get'"))
  end.

Definition chars (s : string) : list json :=
  map (λ c, JStr (String c EmptyString)) (list_ascii_of_string s).

(** [j[0]] *)
Definition py_first (j : json) : outcome json :=
  match j with
  | JList items =>
      match items with
      | x :: _ => Return x
      | [] => Raise (OtherError "IndexError" "list index out of range")
      end
  | JStr s =>
      match chars s with
      | x :: _ => Return x
      | [] => Raise (OtherError "IndexError" "string index out of range")
      end
  | JDict _ => Raise (OtherError "KeyError" "0")
  | _ => Raise (OtherError "TypeError"
                  ("'" ++ type_name j ++ "' object is not subscriptable"))
  end.

(** [j[-1]] *)
Definition py_last (j : json) : outcome json :=
  match j with
  | JList items =>
      match last items with
      | Some x => Return x
      | None => Raise (OtherError "IndexError" "list index out of range")
      end
  | JStr s =>
      match last (chars s) with
      | Some x => Return x
      | None => Raise (OtherError "IndexError" "string index out of range")
      end
  | JDict _ => Raise (OtherError "KeyError" "-1")
  | _ => Raise (OtherError "TypeError"
                  ("'" ++ type_name j ++ "' object is not subscriptable"))
  end.

(** The items a [for] loop over [j] visits. *)
Definition py_iter (j : json) : outcome (list json) :=
  match j with
  | JList items => Return items
  | JStr s => Return (chars s)
  | JDict fields => Return (map (λ kv, JStr kv.1) fields)
  | _ => Raise (OtherError "TypeError"
                  ("'" ++ type_name j ++ "' object is not iterable"))
  end.

(** [j == s] for a string literal [s] *)
Definition eq_str (j : json) (s : string) : bool :=
  match j with
  | JStr t => String.eqb t s
  | _ => false
  end.

End Py.

(* ===================================================================== *)
(** ** Droplet: [DropletManager] of [app/droplet.py]                     *)
(* ===================================================================== *)

Module Droplet.
Import Py.

Definition SANDBOX_TAG : string := "sandbox-instance".
Definition SANDBOX_NAME : string := "sandbox".

(** An f-string before formatting: its literal pieces and the values
    interpolated between them. *)
Inductive part :=
| Lit (s : string)
| Fmt (v : json).

(** What the manager does to the outside, in the order it does it. *)
Inductive event :=
| Request (method : string) (url : list part)
          (headers : list (string * list part)) (payload : option json)
| AgentPost (url : list part) (config : json) (timeout : Z)
| Sleep (seconds : Z)
| LoopTime
| SaveNetworkConfig (config : json).

(** The outside: for each call the manager makes, given the events so
    far, what the call returns or raises. For [Request] this is the whole
    of [_request]'s body after [client.request]: [Raise (HTTPStatusError ..)]
    when [raise_for_status] raises, [Return] of the decoded content (of
    [{}] when the content is empty) otherwise, and [Raise (OtherError ..)]
    for every other failure. For [AgentPost] it is [client.post] followed
    by [response.json()]. *)
Record outside := {
  respond : list event -> event -> outcome json;
  loop_time : list event -> Z   (* [int(asyncio.get_event_loop().time())] *)
}.

(** The state the operations thread: the events so far and the content
    of [network_config.json] ([None] when the file does not exist). *)
Record world := mk_world {
  log : list event;
  network_config_file : option json
}.

Definition M (A : Type) : Type := world -> outcome A * world.

Definition ret {A} (a : A) : M A := fun w => (Return a, w).
Definition raise {A} (e : exn) : M A := fun w => (Raise e, w).
Definition bind {A B} (m : M A) (k : A -> M B) : M B :=
  fun w => match m w with
           | (Return a, w') => k a w'
           | (Raise e, w') => (Raise e, w')
           end.
Definition lift {A} (o : outcome A) : M A := fun w => (o, w).

(** [try: m  except Exception as e: h e] *)
Definition try_except {A} (m : M A) (h : exn -> M A) : M A :=
  fun w => match m w with
           | (Return a, w') => (Return a, w')
           | (Raise e, w') => h e w'
           end.

(** [try: m  except httpx.HTTPStatusError as e: h e.response.text] *)
Definition try_except_status {A} (m : M A) (h : string -> M A) : M A :=
  fun w => match m w with
           | (Return a, w') => (Return a, w')
           | (Raise (HTTPStatusError text _), w') => h text w'
           | (Raise e, w') => (Raise e, w')
           end.

Declare Scope py_scope.
Delimit Scope py_scope with py.
Notation "x <- m ;; k" := (bind m (fun x => k))
  (at level 100, m at next level, k at level 200, right associativity) : py_scope.
Notation "m ;;; k" := (bind m (fun _ => k))
  (at level 100, k at level 200, right associativity) : py_scope.
Local Open Scope py_scope.

Definition emit (e : event) : M unit :=
  fun w => (Return tt, mk_world (log w ++ [e]) (network_config_file w)).

(** [self] *)
Record manager := {
  api_token : string;
  vpc_uuid : string;
  region : string;
  base_url : string
}.

(** [DropletManager(api_token, vpc_uuid, region)] *)
Definition DropletManager (api_token vpc_uuid region : string) : manager :=
  {| api_token := api_token; vpc_uuid := vpc_uuid; region := region;
     base_url := "https://api.digitalocean.com/v2" |}.

Section WithOutside.

Variable out : outside.
Variable self : manager.

Definition _headers : list (string * list part) :=
  [ ("Authorization", [Lit "Bearer "; Lit (api_token self)]);
    ("Content-Type", [Lit "application/json"]) ].

(** [_request(method, endpoint, json=payload)] *)
Definition _request (method : string) (endpoint : list part)
    (payload : option json) : M json :=
  fun w =>
    let ev := Request method (Lit (base_url self) :: endpoint) _headers payload in
    (respond out (log w) ev, mk_world (log w ++ [ev]) (network_config_file w)).

(** [await asyncio.sleep(n)] *)
Definition sleep (n : Z) : M unit := emit (Sleep n).

(** [_find_sandbox_droplet]; [JNull] is [None]. *)
Definition _find_sandbox_droplet : M json :=
  try_except
    (data <- _request "GET" [Lit "/droplets?tag_name="; Lit SANDBOX_TAG] None ;;
     droplets <- lift (py_get data "droplets" (JList [])) ;;
     if truthy droplets then lift (py_first droplets)
     else ret JNull)
    (fun _ => ret JNull).

(** One turn of the loop over the [v4] networks. *)
Definition extract_ip (ips : json * json) (network : json) : outcome (json * json) :=
  match py_get network "type" JNull with
  | Raise e => Raise e
  | Return t =>
      if eq_str t "public" then
        match py_get network "ip_address" JNull with
        | Raise e => Raise e
        | Return ip => Return (ip, ips.2)
        end
      else
        match py_get network "type" JNull with
        | Raise e => Raise e
        | Return t' =>
            if eq_str t' "private" then
              match py_get network "ip_address" JNull with
              | Raise e => Raise e
              | Return ip => Return (ips.1, ip)
              end
            else Return ips
        end
  end.

(** The loop: from the first network to the last. *)
Fixpoint extract_ips (ips : json * json) (networks : list json)
  : outcome (json * json) :=
  match networks with
  | [] => Return ips
  | network :: rest =>
      match extract_ip ips network with
      | Raise e => Raise e
      | Return ips' => extract_ips ips' rest
      end
  end.

(** [get_sandbox_status] *)
Definition get_sandbox_status : M json :=
  droplet <- _find_sandbox_droplet ;;
  if negb (truthy droplet) then
    ret (JDict [ ("running", JBool false);
                 ("status", JStr "not_created");
                 ("droplet_id", JNull);
                 ("ip_address", JNull);
                 ("private_ip", JNull) ])
  else
    networks <- lift (py_get droplet "networks" (JDict [])) ;;
    v4 <- lift (py_get networks "v4" (JList [])) ;;
    items <- lift (py_iter v4) ;;
    ips <- lift (extract_ips (JNull, JNull) items) ;;
    status <- lift (py_get droplet "status" JNull) ;;
    status' <- lift (py_get droplet "status" JNull) ;;
    droplet_id <- lift (py_get droplet "id" JNull) ;;
    created_at <- lift (py_get droplet "created_at" JNull) ;;
    size <- lift (py_get droplet "size" (JDict [])) ;;
    size_slug <- lift (py_get size "slug" JNull) ;;
    region <- lift (py_get droplet "region" (JDict [])) ;;
    region_slug <- lift (py_get region "slug" JNull) ;;
    ret (JDict [ ("running", JBool (eq_str status "active"));
                 ("status", status');
                 ("droplet_id", droplet_id);
                 ("ip_address", ips.1);
                 ("private_ip", ips.2);
                 ("created_at", created_at);
                 ("size", size_slug);
                 ("region", region_slug) ]).

(** [spawn_sandbox(snapshot_id, size)] *)
Definition spawn_sandbox (snapshot_id size : string) : M json :=
  existing <- _find_sandbox_droplet ;;
  if truthy existing then
    droplet_id <- lift (py_get existing "id" JNull) ;;
    ret (JDict [ ("status", JStr "error");
                 ("message", JStr "Sandbox already running");
                 ("droplet_id", droplet_id) ])
  else
    let payload :=
      JDict [ ("name", JStr SANDBOX_NAME);
              ("region", JStr (region self));
              ("size", JStr size);
              ("image", JStr snapshot_id);
              ("vpc_uuid", JStr (vpc_uuid self));
              ("tags", JList [JStr SANDBOX_TAG]);
              ("monitoring", JBool true) ] in
    try_except_status
      (data <- _request "POST" [Lit "/droplets"] (Some payload) ;;
       droplet <- lift (py_get data "droplet" (JDict [])) ;;
       droplet_id <- lift (py_get droplet "id" JNull) ;;
       ret (JDict [ ("status", JStr "creating");
                    ("message", JStr "Sandbox droplet is being created");
                    ("droplet_id", droplet_id) ]))
      (fun text =>
         ret (JDict [ ("status", JStr "error");
                      ("message", JStr ("Failed to create droplet: " ++ text)) ])).

(** [kill_sandbox] *)
Definition kill_sandbox : M json :=
  droplet <- _find_sandbox_droplet ;;
  if negb (truthy droplet) then
    ret (JDict [ ("status", JStr "ok");
                 ("message", JStr "No sandbox running") ])
  else
    droplet_id <- lift (py_get droplet "id" JNull) ;;
    try_except_status
      (_request "DELETE" [Lit "/droplets/"; Fmt droplet_id] None ;;;
       ret (JDict [ ("status", JStr "ok");
                    ("message", JStr "Sandbox droplet destroyed");
                    ("droplet_id", droplet_id) ]))
      (fun text =>
         ret (JDict [ ("status", JStr "error");
                      ("message", JStr ("Failed to destroy droplet: " ++ text)) ])).

(** [apply_network_config(config)] *)
Definition apply_network_config (config : json) : M json :=
  status <- get_sandbox_status ;;
  running <- lift (py_get status "running" JNull) ;;
  if negb (truthy running) then
    ret (JDict [ ("status", JStr "error");
                 ("message", JStr "Sandbox not running") ])
  else
    private_ip <- lift (py_get status "private_ip" JNull) ;;
    if negb (truthy private_ip) then
      ret (JDict [ ("status", JStr "error");
                   ("message", JStr "No private IP for sandbox") ])
    else
      try_except
        (fun w =>
           let ev := AgentPost [Lit "http://"; Fmt private_ip; Lit ":9999/network/apply"]
                               config 30 in
           (respond out (log w) ev,
            mk_world (log w ++ [ev]) (network_config_file w)))
        (fun e =>
           ret (JDict [ ("status", JStr "error");
                        ("message", JStr (str_exn e)) ])).

(** [_get_sandbox_user_data] *)
Definition nl : string := String "010"%char EmptyString.
Definition dquote : string := String "034"%char EmptyString.

Definition _get_sandbox_user_data : string :=
  String.concat nl
    [ "#cloud-config";
      "package_update: true";
      "packages:";
      "  - docker.io";
      "  - docker-compose";
      "  - iptables-persistent";
      "";
      "runcmd:";
      "  - systemctl enable docker";
      "  - systemctl start docker";
      "  - mkdir -p /opt/sandbox";
      "  - echo " ++ dquote ++ "Sandbox ready" ++ dquote ++ " > /opt/sandbox/ready";
      "" ].

(** [int(asyncio.get_event_loop().time())] *)
Definition get_loop_time : M Z :=
  fun w => (Return (loop_time out (log w)),
            mk_world (log w ++ [LoopTime]) (network_config_file w)).

(** [build_sandbox_snapshot] *)
Definition build_sandbox_snapshot : M json :=
  let payload :=
    JDict [ ("name", JStr "sandbox-builder");
            ("region", JStr (region self));
            ("size", JStr "s-2vcpu-2gb");
            ("image", JStr "ubuntu-24-04-x64");
            ("vpc_uuid", JStr (vpc_uuid self));
            ("tags", JList [JStr "sandbox-builder"]);
            ("user_data", JStr _get_sandbox_user_data) ] in
  try_except
    (data <- _request "POST" [Lit "/droplets"] (Some payload) ;;
     droplet <- lift (py_get data "droplet" (JDict [])) ;;
     droplet_id <- lift (py_get droplet "id" JNull) ;;
     if negb (truthy droplet_id) then
       ret (JDict [ ("status", JStr "error");
                    ("message", JStr "Failed to create builder droplet") ])
     else
       sleep 60 ;;;
       _request "POST" [Lit "/droplets/"; Fmt droplet_id; Lit "/actions"]
                (Some (JDict [ ("type", JStr "shutdown") ])) ;;;
       sleep 30 ;;;
       t <- get_loop_time ;;
       snapshot_data <-
         _request "POST" [Lit "/droplets/"; Fmt droplet_id; Lit "/actions"]
                  (Some (JDict [ ("type", JStr "snapshot");
                                 ("name", JStr ("sandbox-" ++ pretty t)) ])) ;;
       sleep 120 ;;;
       snapshots <-
         _request "GET" [Lit "/droplets/"; Fmt droplet_id; Lit "/snapshots"] None ;;
       snapshot_list <- lift (py_get snapshots "snapshots" (JList [])) ;;
       _request "DELETE" [Lit "/droplets/"; Fmt droplet_id] None ;;;
       if truthy snapshot_list then
         newest <- lift (py_last snapshot_list) ;;
         snapshot_id <- lift (py_get newest "id" JNull) ;;
         ret (JDict [ ("status", JStr "ok");
                      ("snapshot_id", snapshot_id);
                      ("message", JStr "Snapshot created successfully") ])
       else
         ret (JDict [ ("status", JStr "error");
                      ("message", JStr "Snapshot not found") ]))
    (fun e =>
       ret (JDict [ ("status", JStr "error");
                    ("message", JStr (str_exn e)) ])).

End WithOutside.

End Droplet.

(* ===================================================================== *)
(** ** Main: the network-config endpoint of [app/main.py]                *)
(* ===================================================================== *)

Module Main.
Import Py Droplet.
Local Open Scope py_scope.

(** The request body of [POST /api/network/config]. *)
Record NetworkConfigUpdate := {
  containers : json;
  inter_container : json
}.

(** [config.model_dump()] *)
Definition model_dump (config : NetworkConfigUpdate) : json :=
  JDict [ ("containers", containers config);
          ("inter_container", inter_container config) ].

(** [save_network_config]: overwrites [network_config.json]. *)
Definition save_network_config (config : json) : M unit :=
  fun w => (Return tt,
            mk_world (log w ++ [SaveNetworkConfig config]) (Some config)).

Section WithOutside.

Variable out : outside.
Variable droplet_manager : manager.

(** [update_network_config] *)
Definition update_network_config (config : NetworkConfigUpdate) : M json :=
  save_network_config (model_dump config) ;;;
  status <- get_sandbox_status out droplet_manager ;;
  running <- lift (py_get status "running" JNull) ;;
  (if truthy running then
     (_ <- apply_network_config out droplet_manager (model_dump config) ;;
      ret tt)
   else ret tt) ;;;
  ret (JDict [ ("status", JStr "ok");
               ("config", model_dump config) ]).

End WithOutside.

End Main.

(* ===================================================================== *)
(** ** Requests, results and sample providers                            *)
(* ===================================================================== *)

Module DropletRuns.
Import Py Droplet.

(** The world after one more event. *)
Definition push (w : world) (ev : event) : world :=
  mk_world (log w ++ [ev]) (network_config_file w).

(** The events of [w'] that were not yet in [w]. *)
Definition events_since (w w' : world) : list event :=
  drop (length (log w)) (log w').

(** A computation that never writes [network_config.json]. *)
Definition keeps_file {A} (m : M A) : Prop :=
  forall w r w', m w = (r, w') -> network_config_file w' = network_config_file w.

(** The requests the manager sends. *)
Definition list_request (self : manager) : event :=
  Request "GET" [Lit (base_url self); Lit "/droplets?tag_name="; Lit SANDBOX_TAG]
          (_headers self) None.

Definition spawn_payload (self : manager) (snapshot_id size : string) : json :=
  JDict [ ("name", JStr SANDBOX_NAME);
          ("region", JStr (region self));
          ("size", JStr size);
          ("image", JStr snapshot_id);
          ("vpc_uuid", JStr (vpc_uuid self));
          ("tags", JList [JStr SANDBOX_TAG]);
          ("monitoring", JBool true) ].

Definition create_request (self : manager) (payload : json) : event :=
  Request "POST" [Lit (base_url self); Lit "/droplets"] (_headers self) (Some payload).

Definition destroy_request (self : manager) (droplet_id : json) : event :=
  Request "DELETE" [Lit (base_url self); Lit "/droplets/"; Fmt droplet_id]
          (_headers self) None.

Definition agent_post (private_ip config : json) : event :=
  AgentPost [Lit "http://"; Fmt private_ip; Lit ":9999/network/apply"] config 30.

(** Recognising what an event does to the provider. *)
Definition is_create (ev : event) : bool :=
  match ev with
  | Request method [Lit _; Lit endpoint] _ _ =>
      String.eqb method "POST" && String.eqb endpoint "/droplets"
  | _ => false
  end.

Definition is_destroy (ev : event) : bool :=
  match ev with
  | Request method _ _ _ => String.eqb method "DELETE"
  | _ => false
  end.

(** A request that changes something at the provider: any but a [GET]. *)
Definition is_mutation (ev : event) : bool :=
  match ev with
  | Request method _ _ _ => negb (String.eqb method "GET")
  | _ => false
  end.

Definition count (p : event -> bool) (events : list event) : nat :=
  length (filter (fun ev => p ev = true) events).

(** The results of the operations. *)
Definition not_created : json :=
  JDict [ ("running", JBool false);
          ("status", JStr "not_created");
          ("droplet_id", JNull);
          ("ip_address", JNull);
          ("private_ip", JNull) ].

Definition creating (droplet_id : json) : json :=
  JDict [ ("status", JStr "creating");
          ("message", JStr "Sandbox droplet is being created");
          ("droplet_id", droplet_id) ].

Definition already_running (droplet_id : json) : json :=
  JDict [ ("status", JStr "error");
          ("message", JStr "Sandbox already running");
          ("droplet_id", droplet_id) ].

Definition no_sandbox_running : json :=
  JDict [ ("status", JStr "ok");
          ("message", JStr "No sandbox running") ].

Definition error (message : string) : json :=
  JDict [ ("status", JStr "error"); ("message", JStr message) ].

(** With no sandbox found, [spawn_sandbox] sends the create request and
    its outcome is decided by the answer to it. *)
Definition spawn_result (answer : outcome json) : outcome json :=
  match answer with
  | Return data =>
      match py_get data "droplet" (JDict []) with
      | Return droplet =>
          match py_get droplet "id" JNull with
          | Return droplet_id => Return (creating droplet_id)
          | Raise e => Raise e
          end
      | Raise e => Raise e
      end
  | Raise (HTTPStatusError text _) => Return (error ("Failed to create droplet: " ++ text))
  | Raise e => Raise e
  end.

(** [d.get(k)] on the items of a dict. *)
Definition field (k : string) (fields : list (string * json)) : json :=
  default JNull (lookup_field k fields).

(** The address a status reports for the networks of type [ty]: the
    [ip_address] of the last such entry of the list. *)
Definition has_type (ty : string) (network : json) : bool :=
  match network with
  | JDict fields => eq_str (field "type" fields) ty
  | _ => false
  end.

Definition ip_address_of (network : json) : json :=
  match network with
  | JDict fields => field "ip_address" fields
  | _ => JNull
  end.

Definition last_ip (ty : string) (fallback : json) (networks : list json) : json :=
  match last (filter (fun n => has_type ty n = true) networks) with
  | Some network => ip_address_of network
  | None => fallback
  end.

Definition first_ip (ty : string) (networks : list json) : json :=
  match filter (fun n => has_type ty n = true) networks with
  | network :: _ => ip_address_of network
  | [] => JNull
  end.

Definition is_dict (j : json) : Prop :=
  match j with JDict _ => True | _ => False end.

(** A provider that answers the calls in order from a script, and fails
    to connect once the script is used up. Sleeps and clock readings use
    up no answer. *)
Definition is_call (ev : event) : bool :=
  match ev with
  | Request _ _ _ _ => true
  | AgentPost _ _ _ => true
  | _ => false
  end.

Definition connect_error : exn :=
  OtherError "ConnectError" "All connection attempts failed".

Definition scripted (answers : list (outcome json)) : outside :=
  {| respond := fun history _ =>
       nth (count is_call history) answers (Raise connect_error);
     loop_time := fun _ => 1700000000%Z |}.

Definition sample_manager : manager := DropletManager "dop_v1_token" "vpc-1" "nyc1".

Definition start : world := mk_world [] None.

Definition network (ty ip : string) : json :=
  JDict [ ("ip_address", JStr ip); ("netmask", JStr "255.255.240.0"); ("type", JStr ty) ].

Definition sample_fields (status : string) (networks : list json)
  : list (string * json) :=
  [ ("id", JInt 4242);
    ("name", JStr SANDBOX_NAME);
    ("status", JStr status);
    ("created_at", JStr "2024-05-01T12:00:00Z");
    ("networks", JDict [ ("v4", JList networks); ("v6", JList []) ]);
    ("size", JDict [ ("slug", JStr "s-2vcpu-2gb") ]);
    ("region", JDict [ ("slug", JStr "nyc1") ]) ].

Definition sample_droplet (status : string) (networks : list json) : json :=
  JDict (sample_fields status networks).

Definition droplets (ds : list json) : json :=
  JDict [ ("droplets", JList ds) ].

(** An instance with two public and two private addresses. *)
Definition two_of_each : list json :=
  [ network "public" "203.0.113.10"; network "public" "203.0.113.20";
    network "private" "10.0.0.5"; network "private" "10.0.0.6" ].

(** An active sandbox with one address of each type. *)
Definition active_sandbox : json :=
  sample_droplet "active" [ network "public" "203.0.113.10";
                            network "private" "10.0.0.5" ].

(** Answers of the provider during a snapshot build. *)
Definition builder_created : outcome json :=
  Return (JDict [ ("droplet", JDict [ ("id", JInt 4243);
                                       ("name", JStr "sandbox-builder") ]) ]).

Definition action_accepted : outcome json :=
  Return (JDict [ ("action", JDict [ ("id", JInt 1); ("status", JStr "in-progress") ]) ]).

Definition snapshots_listed : outcome json :=
  Return (JDict [ ("snapshots", JList [ JDict [ ("id", JInt 900) ];
                                        JDict [ ("id", JInt 901) ] ]) ]).

Definition unprocessable : exn :=
  HTTPStatusError "{'id': 'unprocessable_entity'}"
                  "Client error '422 Unprocessable Entity'".

Definition served_unavailable : exn :=
  HTTPStatusError "{'id': 'service_unavailable'}"
                  "Server error '503 Service Unavailable'".

(** A build that created its builder, ended with an error result and
    issued no destroy request. *)
Definition builder_left_running (out : outside) : Prop :=
  let done := build_sandbox_snapshot out sample_manager start in
  (exists message, done.1 = Return (error message)) /\
  count is_create (log done.2) = 1%nat /\
  count is_destroy (log done.2) = 0%nat.

(** The configuration sent in the examples. *)
Definition sample_config : json :=
  JDict [ ("containers",
           JDict [ ("container-1", JDict [ ("egress", JStr "none");
                                           ("allowed_domains", JList []) ]) ]);
          ("inter_container",
           JDict [ ("enabled", JBool false); ("rules", JList []) ]) ].

Definition agent_refused : outcome json :=
  Return (JDict [ ("status", JStr "error");
                  ("message", JStr "iptables-restore failed") ]).

End DropletRuns.

Module MainRuns.
Import Py Droplet DropletRuns Main.

Definition sample_update : NetworkConfigUpdate :=
  {| containers :=
       JDict [ ("container-1", JDict [ ("egress", JStr "none");
                                       ("allowed_domains", JList []) ]);
               ("container-4", JDict [ ("egress", JStr "allowlist");
                                       ("allowed_domains",
                                        JList [JStr "api.runpod.ai"]) ]) ];
     inter_container :=
       JDict [ ("enabled", JBool false); ("rules", JList []) ] |}.

Definition is_agent_post (ev : event) : bool :=
  match ev with
  | AgentPost _ _ _ => true
  | _ => false
  end.

Definition ok_with (config : json) : json :=
  JDict [ ("status", JStr "ok"); ("config", config) ].

(** An update during which the configuration was sent to the live
    sandbox once, the sending came back as an error result, and the
    endpoint answered "ok" all the same. *)
Definition apply_failure_hidden (out : outside) : Prop :=
  let config := model_dump sample_update in
  let saved := save_network_config config start in
  let checked := get_sandbox_status out sample_manager saved.2 in
  let applied := apply_network_config out sample_manager config checked.2 in
  let done := update_network_config out sample_manager sample_update start in
  (exists message, applied.1 = Return (error message)) /\
  done.2 = applied.2 /\
  count is_agent_post (log done.2) = 1%nat /\
  network_config_file done.2 = Some config /\
  done.1 = Return (ok_with config).

End MainRuns.

(* ===================================================================== *)
(** ** Endpoints: the session-gated routes of [app/main.py]              *)
(* ===================================================================== *)

Module Endpoints.
Import Clock Auth Py.

(** [auth.SESSION_COOKIE_NAME] *)
Definition SESSION_COOKIE_NAME : string := "sandbox_session".

(** [totp_secret.json]: absent, present with content that reading fails
    on (with the exception [json.loads] or [.get] raises), or present
    with a dict, of which [data.get("secret")] is kept. *)
Inductive secret_file :=
| NoSecretFile
| BrokenSecretFile (e : exn)
| SecretFile (secret : option string).

(** [get_totp_secret] *)
Definition get_totp_secret (sf : secret_file) : outcome (option string) :=
  match sf with
  | NoSecretFile => Return None
  | BrokenSecretFile e => Raise e
  | SecretFile secret => Return secret
  end.

(** [save_totp_secret]: writes [{"secret": secret}]. *)
Definition save_totp_secret (secret : string) : secret_file :=
  SecretFile (Some secret).

(** [is_setup_complete]: [get_totp_secret() is not None]. *)
Definition is_setup_complete (sf : secret_file) : outcome bool :=
  match get_totp_secret sf with
  | Return (Some _) => Return true
  | Return None => Return false
  | Raise e => Raise e
  end.

(** The arguments of [response.set_cookie]. *)
Record cookie := {
  key : string;
  value : string;
  httponly : bool;
  secure : bool;
  samesite : string;
  max_age : Z
}.

(** What a route hands back: a plain response with headers, a redirect
    (which may set or delete a cookie), or a rendered template with the
    string entries of its context. *)
Inductive response :=
| Response (status_code : Z) (headers : list (string * string))
| RedirectResponse (url : string) (status_code : Z)
                   (set_cookie : option cookie) (delete_cookie : option string)
| TemplateResponse (name : string) (context : list (string * string)).

(** How a route ends: with a response, with a raised [HTTPException], or
    with any other exception passing through it. *)
Inductive served :=
| Served (r : response)
| HTTPException (status_code : Z) (detail : string)
| Crashed (e : exn).

(** The files of the data directory. *)
Record app := mk_app {
  secrets : secret_file;
  store : sessions_file
}.

(** The cookie both session-issuing routes set. *)
Definition session_cookie (session_id : string) : cookie :=
  {| key := SESSION_COOKIE_NAME; value := session_id;
     httponly := true; secure := true; samesite := "strict";
     max_age := 86400 |}.

Section WithSettings.

(** [hashlib.sha256(s.encode()).hexdigest()] *)
Variable sha256_hexdigest : string -> string.

(** [pyotp.TOTP(secret).verify(code, valid_window=1)], at the time of
    the call. *)
Variable totp_verify : string -> string -> bool.

(** [settings.domain] *)
Variable domain : string.

(** [auth.verify_totp] *)
Definition verify_totp (secret code : string) : bool := totp_verify secret code.

(** [verify_auth]: [GET /auth/verify]. [cookies] is [request.cookies];
    [now] is the clock reading [verify_session] takes. *)
Definition verify_auth (cookies : gmap string string) (now : datetime)
    (a : app) : served * app :=
  match cookies !! SESSION_COOKIE_NAME with
  | None => (HTTPException 401 "Unauthorized", a)
  | Some session_id =>
      if decide (session_id = "") then (HTTPException 401 "Unauthorized", a)
      else
        let (valid, f) := verify_session sha256_hexdigest session_id now (store a) in
        if negb valid then (HTTPException 401 "Unauthorized", mk_app (secrets a) f)
        else
          let (user, f') := get_session_user sha256_hexdigest session_id f in
          let x_user := match user with
                        | Some u => if decide (u = "") then "admin" else u
                        | None => "admin"
                        end in
          (Served (Response 200 [("X-User", x_user)]), mk_app (secrets a) f')
  end.

(** The tail of [complete_setup] and [login]: create the session of
    ["admin"] and redirect to ["/"] with its cookie. [session_id] and the
    three datetimes are the draw and the clock readings of
    [create_session]. *)
Definition start_session (session_id : string)
    (t_clean t_expiry t_created : datetime) (a : app) : served * app :=
  match create_session sha256_hexdigest "admin" session_id
                       t_clean t_expiry t_created (store a) with
  | None => (Crashed (OtherError "OverflowError" "date value out of range"), a)
  | Some (sid, f) =>
      (Served (RedirectResponse "/" 303 (Some (session_cookie sid)) None),
       mk_app (secrets a) f)
  end.

(** [complete_setup]: [POST /setup] *)
Definition complete_setup (secret totp_code session_id : string)
    (t_clean t_expiry t_created : datetime) (a : app) : served * app :=
  match is_setup_complete (secrets a) with
  | Raise e => (Crashed e, a)
  | Return true => (Served (RedirectResponse "/login" 303 None None), a)
  | Return false =>
      if negb (totp_verify secret totp_code) then
        (Served (TemplateResponse "setup.html"
                   [ ("error", "Invalid TOTP code. Please try again.");
                     ("secret", secret);
                     ("qr_code", "") ]), a)
      else
        start_session session_id t_clean t_expiry t_created
                      (mk_app (save_totp_secret secret) (store a))
  end.

(** [login_page]: [GET /login] *)
Definition login_page (cookies : gmap string string) (now : datetime)
    (a : app) : served * app :=
  match is_setup_complete (secrets a) with
  | Raise e => (Crashed e, a)
  | Return false => (Served (RedirectResponse "/setup" 303 None None), a)
  | Return true =>
      let page := Served (TemplateResponse "login.html" [ ("domain", domain) ]) in
      match cookies !! SESSION_COOKIE_NAME with
      | None => (page, a)
      | Some session_id =>
          if decide (session_id = "") then (page, a)
          else
            let (valid, f) := verify_session sha256_hexdigest session_id now (store a) in
            if valid then
              (Served (RedirectResponse "/" 303 None None), mk_app (secrets a) f)
            else (page, mk_app (secrets a) f)
      end
  end.

(** [login]: [POST /login] *)
Definition login (totp_code session_id : string)
    (t_clean t_expiry t_created : datetime) (a : app) : served * app :=
  match get_totp_secret (secrets a) with
  | Raise e => (Crashed e, a)
  | Return None => (Served (RedirectResponse "/setup" 303 None None), a)
  | Return (Some secret) =>
      if decide (secret = "") then
        (Served (RedirectResponse "/setup" 303 None None), a)
      else if negb (verify_totp secret totp_code) then
        (Served (TemplateResponse "login.html"
                   [ ("error", "Invalid TOTP code"); ("domain", domain) ]), a)
      else start_session session_id t_clean t_expiry t_created a
  end.

(** [logout]: [GET /logout] *)
Definition logout (a : app) : served * app :=
  (Served (RedirectResponse "/login" 303 None (Some SESSION_COOKIE_NAME)), a).

End WithSettings.

(** The cookie a response sets, if it sets one. *)
Definition cookie_set (s : served) : option cookie :=
  match s with
  | Served (RedirectResponse _ _ c _) => c
  | _ => None
  end.

(** The request cookies of a browser that kept the cookie. *)
Definition cookies_with (c : cookie) : gmap string string :=
  {[ key c := value c ]}.

End Endpoints.

(* ===================================================================== *)
(** ** Sample stores and requests                                        *)
(* ===================================================================== *)

Module SessionSamples.
Import Clock Auth AuthRuns Py Endpoints.

(** A record that expires at noon sharp, one without an expiry, and
    stores holding them under the digest of the token ["other"]. *)
Definition noon_record : session := new_session "operator" t_2020 t_noon.
Definition bare_record : session := {[ "user" := "operator" ]}.

Definition one_session (data : session) : sessions_file :=
  Stored {[ "other" := data ]}.

Definition two_sessions (data : session) : sessions_file :=
  Stored {[ "tok" := fresh_record; "other" := data ]}.

(** The value of [X-User] for a stored record: [user or "admin"]. *)
Definition x_user_of (data : session) : string :=
  match data !! "user" with
  | Some u => if decide (u = "") then "admin" else u
  | None => "admin"
  end.

(** A verifier that takes the code ["123456"] for any secret. *)
Definition sample_totp (secret code : string) : bool := String.eqb code "123456".

Definition enrolled : app := mk_app (SecretFile (Some "JBSWY3DPEHPK3PXP")) Missing.
Definition unenrolled : app := mk_app NoSecretFile Missing.

End SessionSamples.

(* ===================================================================== *)
(** ** The requests of a snapshot build, and the stored configuration    *)
(* ===================================================================== *)

Module DropletTraces.
Import Py Droplet DropletRuns Main.
Local Open Scope py_scope.

(** A computation that leaves the world as it found it. *)
Definition pure {A} (m : M A) : Prop :=
  forall w, exists r, m w = (r, w).

(** A computation that raises nothing, whatever the outside does. *)
Definition never_raises {A} (m : M A) : Prop :=
  forall w, exists a w', m w = (Return a, w').

(** The payload of the builder's create request. *)
Definition builder_payload (self : manager) : json :=
  JDict [ ("name", JStr "sandbox-builder");
          ("region", JStr (region self));
          ("size", JStr "s-2vcpu-2gb");
          ("image", JStr "ubuntu-24-04-x64");
          ("vpc_uuid", JStr (vpc_uuid self));
          ("tags", JList [JStr "sandbox-builder"]);
          ("user_data", JStr _get_sandbox_user_data) ].

Definition action_request (self : manager) (droplet_id payload : json) : event :=
  Request "POST" [Lit (base_url self); Lit "/droplets/"; Fmt droplet_id; Lit "/actions"]
          (_headers self) (Some payload).

Definition shutdown_request (self : manager) (droplet_id : json) : event :=
  action_request self droplet_id (JDict [ ("type", JStr "shutdown") ]).

Definition snapshot_request (self : manager) (droplet_id : json) (t : Z) : event :=
  action_request self droplet_id
    (JDict [ ("type", JStr "snapshot"); ("name", JStr ("sandbox-" ++ pretty t)) ]).

Definition snapshots_request (self : manager) (droplet_id : json) : event :=
  Request "GET" [Lit (base_url self); Lit "/droplets/"; Fmt droplet_id; Lit "/snapshots"]
          (_headers self) None.

(** The events of a build from the create request to the snapshot
    listing, for the builder [droplet_id] and the loop time [t]. *)
Definition build_steps (self : manager) (droplet_id : json) (t : Z) : list event :=
  [ create_request self (builder_payload self);
    Sleep 60;
    shutdown_request self droplet_id;
    Sleep 30;
    LoopTime;
    snapshot_request self droplet_id t;
    Sleep 120;
    snapshots_request self droplet_id ].

(** The world after some more events. *)
Definition pushes (w : world) (evs : list event) : world :=
  mk_world (log w ++ evs) (network_config_file w).

(** The results of [build_sandbox_snapshot] and [kill_sandbox]. *)
Definition snapshot_created (snapshot_id : json) : json :=
  JDict [ ("status", JStr "ok");
          ("snapshot_id", snapshot_id);
          ("message", JStr "Snapshot created successfully") ].

Definition destroyed (droplet_id : json) : json :=
  JDict [ ("status", JStr "ok");
          ("message", JStr "Sandbox droplet destroyed");
          ("droplet_id", droplet_id) ].

(** The status [get_sandbox_status] builds for an instance with the
    given items, [v4] networks and items of its size and region. *)
Definition status_of (fields : list (string * json)) (networks : list json)
    (size region : list (string * json)) : json :=
  JDict [ ("running", JBool (eq_str (field "status" fields) "active"));
          ("status", field "status" fields);
          ("droplet_id", field "id" fields);
          ("ip_address", last_ip "public" JNull networks);
          ("private_ip", last_ip "private" JNull networks);
          ("created_at", field "created_at" fields);
          ("size", field "slug" size);
          ("region", field "slug" region) ].

(** An instance as the provider documents it: an object with its
    networks, size and region as objects, and a list of objects as its
    [v4] networks. *)
Definition instance (fields : list (string * json)) (networks : list json)
    (size region : list (string * json)) : Prop :=
  fields <> [] /\
  (exists netfields, lookup_field "networks" fields = Some (JDict netfields) /\
                     lookup_field "v4" netfields = Some (JList networks)) /\
  Forall is_dict networks /\
  lookup_field "size" fields = Some (JDict size) /\
  lookup_field "region" fields = Some (JDict region).

(** [get_network_config]: the stored configuration, or the default. *)
Definition default_network_config : json :=
  JDict [ ("containers",
           JDict [ ("container-1", JDict [ ("egress", JStr "none");
                                           ("allowed_domains", JList []) ]);
                   ("container-2", JDict [ ("egress", JStr "none");
                                           ("allowed_domains", JList []) ]);
                   ("container-3", JDict [ ("egress", JStr "none");
                                           ("allowed_domains", JList []) ]);
                   ("container-4", JDict [ ("egress", JStr "allowlist");
                                           ("allowed_domains",
                                            JList [ JStr "api.runpod.ai";
                                                    JStr "*.runpod.net" ]) ]) ]);
          ("inter_container",
           JDict [ ("enabled", JBool false); ("rules", JList []) ]) ].

Definition get_network_config : M json :=
  fun w => (Return (match network_config_file w with
                    | Some config => config
                    | None => default_network_config
                    end), w).

(** The AttributeError of a [.get] on something that is no dict. *)
Definition no_get (j : json) : exn :=
  OtherError "AttributeError" ("'" ++ type_name j ++ "' object has no attribute 'get'").

End DropletTraces.

Module TraceSamples.
Import Py Droplet DropletRuns Main MainRuns DropletTraces.

(** The answers of a provider during a build, as values. *)
Definition builder_fields : list (string * json) :=
  [ ("id", JInt 4243); ("name", JStr "sandbox-builder") ].
Definition builder_answer : json := JDict [ ("droplet", JDict builder_fields) ].
Definition action_answer : json :=
  JDict [ ("action", JDict [ ("id", JInt 1); ("status", JStr "in-progress") ]) ].
Definition listed_snapshots : list json :=
  [ JDict [ ("id", JInt 900) ]; JDict [ ("id", JInt 901) ] ].
Definition listing_answer : json := JDict [ ("snapshots", JList listed_snapshots) ].

(** A provider that answers every step of a build, one whose destroy
    fails, and one that creates a builder without telling its id. *)
Definition full_build : outside :=
  scripted [ Return builder_answer; Return action_answer; Return action_answer;
             Return listing_answer; Return (JDict []) ].
Definition destroy_fails : outside :=
  scripted [ Return builder_answer; Return action_answer; Return action_answer;
             Return listing_answer; Raise served_unavailable ].
Definition no_builder_id : outside :=
  scripted [ Return (JDict [ ("droplet", JDict [ ("name", JStr "sandbox-builder") ]) ]) ].

(** The items of the active sample sandbox, of its networks, size and
    region, and of a sandbox that is still being provisioned. *)
Definition sample_networks : list json :=
  [ network "public" "203.0.113.10"; network "private" "10.0.0.5" ].
Definition active_fields : list (string * json) := sample_fields "active" sample_networks.
Definition new_fields : list (string * json) := sample_fields "new" sample_networks.
Definition sample_size : list (string * json) := [ ("slug", JStr "s-2vcpu-2gb") ].
Definition sample_region : list (string * json) := [ ("slug", JStr "nyc1") ].

(** Providers that list the active sandbox, the sandbox in provisioning,
    nothing, and a string where an instance should be. *)
Definition lists_active : outside :=
  scripted [ Return (droplets [JDict active_fields]); Return (JDict []) ].
Definition lists_new : outside :=
  scripted [ Return (droplets [JDict new_fields]) ].
Definition lists_nothing_then_active : outside :=
  scripted [ Return (droplets []);
             Return (JDict [ ("droplet", JDict [ ("id", JInt 4242) ]) ]);
             Return (droplets [JDict active_fields]) ].
Definition lists_a_string : outside :=
  scripted [ Return (droplets [JStr "sandbox"]) ].

End TraceSamples.

(* ===================================================================== *)
(** ** Facts about the clock                                             *)
(* ===================================================================== *)

Module ClockFacts.
Import Clock.
Local Open Scope N_scope.

Example iso_whole_second :
  isoformat (mk_datetime 2024 2 29 23 59 7 0) = "2024-02-29T23:59:07".
Proof. reflexivity. Qed.

Example iso_micro :
  isoformat (mk_datetime 987 12 1 0 0 0 1234) = "0987-12-01T00:00:00.001234".
Proof. reflexivity. Qed.

Example add24_leap :
  add_hours (mk_datetime 2024 2 28 13 0 0 5) 24 = Some (mk_datetime 2024 2 29 13 0 0 5).
Proof. reflexivity. Qed.

Example add24_year_end :
  add_hours (mk_datetime 2023 12 31 13 0 0 5) 24 = Some (mk_datetime 2024 1 1 13 0 0 5).
Proof. reflexivity. Qed.

Example add24_overflow :
  add_hours (mk_datetime 9999 12 31 0 0 0 0) 24 = None.
Proof. reflexivity. Qed.

(** *** String order of fixed-width fields *)

Lemma compare_app (a b s t : string) :
  String.length a = String.length b ->
  String.compare (a ++ s) (b ++ t) = lex (String.compare a b) (String.compare s t).
Proof.
  revert b. induction a as [|c a IH]; intros [|c' b] Hlen; simpl in *; try discriminate.
  - reflexivity.
  - destruct (Ascii.compare c c'); simpl; auto.
Qed.

Lemma compare_refl (s : string) : String.compare s s = Eq.
Proof.
  induction s as [|c s IH]; simpl; [reflexivity|].
  unfold Ascii.compare. rewrite N.compare_refl. exact IH.
Qed.

Lemma compare_prefix (a s t : string) :
  String.compare (a ++ s) (a ++ t) = String.compare s t.
Proof. rewrite compare_app by reflexivity. now rewrite compare_refl. Qed.

Lemma digit_compare (a b : N) :
  a < 10 -> b < 10 -> Ascii.compare (digit a) (digit b) = (a ?= b).
Proof.
  intros Ha Hb. unfold Ascii.compare, digit.
  rewrite !N_ascii_embedding by lia.
  destruct (N.compare_spec a b);
    [apply N.compare_eq_iff | apply N.compare_lt_iff | apply N.compare_gt_iff]; lia.
Qed.

Lemma lex_compare_base (B q1 r1 q2 r2 : N) :
  r1 < B -> r2 < B ->
  lex (q1 ?= q2) (r1 ?= r2) = (B * q1 + r1 ?= B * q2 + r2).
Proof.
  intros H1 H2.
  destruct (N.compare_spec q1 q2) as [E|L|G]; simpl.
  - subst q2.
    destruct (N.compare_spec r1 r2) as [E'|L'|G'];
      symmetry; [apply N.compare_eq_iff | apply N.compare_lt_iff | apply N.compare_gt_iff]; lia.
  - symmetry; apply N.compare_lt_iff; nia.
  - symmetry; apply N.compare_gt_iff; nia.
Qed.

Lemma compare_divmod (B x y : N) :
  0 < B -> lex (x / B ?= y / B) (x mod B ?= y mod B) = (x ?= y).
Proof.
  intros HB.
  rewrite (lex_compare_base B) by (apply N.mod_lt; lia).
  now rewrite <- !N.div_mod by lia.
Qed.

Lemma pad2_compare (x y : N) :
  x < 100 -> y < 100 -> String.compare (pad2 x) (pad2 y) = (x ?= y).
Proof.
  intros Hx Hy. unfold pad2. simpl.
  assert (x / 10 < 10) by (apply N.Div0.div_lt_upper_bound; lia).
  assert (y / 10 < 10) by (apply N.Div0.div_lt_upper_bound; lia).
  pose proof (N.mod_lt x 10 ltac:(lia)). pose proof (N.mod_lt y 10 ltac:(lia)).
  rewrite !digit_compare by assumption.
  rewrite <- (compare_divmod 10 x y) by lia.
  destruct (x / 10 ?= y / 10); simpl; auto.
  destruct (x mod 10 ?= y mod 10); reflexivity.
Qed.

Lemma pad2_length (x : N) : String.length (pad2 x) = 2%nat.
Proof. reflexivity. Qed.

Lemma pad4_length (x : N) : String.length (pad4 x) = 4%nat.
Proof. reflexivity. Qed.

Lemma pad4_compare (x y : N) :
  x < 10000 -> y < 10000 -> String.compare (pad4 x) (pad4 y) = (x ?= y).
Proof.
  intros Hx Hy. unfold pad4.
  rewrite compare_app by reflexivity.
  rewrite !pad2_compare;
    try (apply N.mod_lt; lia); try (apply N.Div0.div_lt_upper_bound; lia).
  apply compare_divmod. lia.
Qed.

Lemma pad6_compare (x y : N) :
  x < 1000000 -> y < 1000000 -> String.compare (pad6 x) (pad6 y) = (x ?= y).
Proof.
  intros Hx Hy. unfold pad6.
  rewrite compare_app by reflexivity.
  rewrite pad2_compare by (apply N.Div0.div_lt_upper_bound; lia).
  rewrite pad4_compare by (apply N.mod_lt; lia).
  apply compare_divmod. lia.
Qed.

(** The fractional part [isoformat] appends. *)
Lemma fraction_compare (x y : N) :
  x < 1000000 -> y < 1000000 ->
  String.compare (if x =? 0 then "" else "." ++ pad6 x)
                 (if y =? 0 then "" else "." ++ pad6 y) = (x ?= y).
Proof.
  intros Hx Hy.
  destruct (N.eqb_spec x 0) as [->|Hx0], (N.eqb_spec y 0) as [->|Hy0].
  - reflexivity.
  - destruct y; [lia | reflexivity].
  - destruct x; [lia | reflexivity].
  - rewrite compare_prefix. now apply pad6_compare.
Qed.

Lemma datetime_ok_bounds (d : datetime) :
  datetime_ok d = true ->
  1 <= year d <= 9999 /\ 1 <= month d <= 12 /\
  1 <= day d <= days_in_month (year d) (month d) /\
  hour d < 24 /\ minute d < 60 /\ second d < 60 /\ microsecond d < 1000000.
Proof.
  unfold datetime_ok, MINYEAR, MAXYEAR. intros H.
  repeat (apply andb_prop in H; destruct H as [H ?]).
  repeat match goal with
         | h : (_ <=? _) = true |- _ => apply N.leb_le in h
         | h : (_ <? _) = true |- _ => apply N.ltb_lt in h
         end.
  lia.
Qed.

Lemma days_in_month_le (y m : N) : days_in_month y m <= 31.
Proof.
  unfold days_in_month.
  repeat match goal with
         | |- context [match ?x with _ => _ end] => destruct x
         end; lia.
Qed.

(** [isoformat] is an order embedding: comparing the strings is
    comparing the datetimes. *)
Lemma isoformat_compare (a b : datetime) :
  datetime_ok a = true -> datetime_ok b = true ->
  String.compare (isoformat a) (isoformat b) = datetime_compare a b.
Proof.
  intros Ha Hb.
  apply datetime_ok_bounds in Ha. apply datetime_ok_bounds in Hb.
  pose proof (days_in_month_le (year a) (month a)).
  pose proof (days_in_month_le (year b) (month b)).
  unfold isoformat, datetime_compare.
  rewrite compare_app by reflexivity. rewrite pad4_compare by lia. f_equal.
  rewrite (compare_prefix "-").
  rewrite compare_app by reflexivity. rewrite pad2_compare by lia. f_equal.
  rewrite (compare_prefix "-").
  rewrite compare_app by reflexivity. rewrite pad2_compare by lia. f_equal.
  rewrite (compare_prefix "T").
  rewrite compare_app by reflexivity. rewrite pad2_compare by lia. f_equal.
  rewrite (compare_prefix ":").
  rewrite compare_app by reflexivity. rewrite pad2_compare by lia. f_equal.
  rewrite (compare_prefix ":").
  rewrite compare_app by reflexivity. rewrite pad2_compare by lia. f_equal.
  apply fraction_compare; lia.
Qed.

(** *** The order on datetimes *)

Lemma lex_opp (c1 c2 : comparison) : CompOpp (lex c1 c2) = lex (CompOpp c1) (CompOpp c2).
Proof. now destruct c1. Qed.

Lemma datetime_compare_antisym (a b : datetime) :
  datetime_compare b a = CompOpp (datetime_compare a b).
Proof.
  unfold datetime_compare. rewrite !lex_opp.
  now rewrite <- !N.compare_antisym.
Qed.

Lemma datetime_compare_rank (a b : datetime) :
  datetime_ok a = true -> datetime_ok b = true ->
  datetime_compare a b = (rank a ?= rank b).
Proof.
  intros Ha Hb.
  apply datetime_ok_bounds in Ha. apply datetime_ok_bounds in Hb.
  pose proof (days_in_month_le (year a) (month a)).
  pose proof (days_in_month_le (year b) (month b)).
  unfold datetime_compare, rank.
  rewrite <- !lex_compare_base by lia.
  now destruct (year a ?= year b), (month a ?= month b), (day a ?= day b),
    (hour a ?= hour b), (minute a ?= minute b), (second a ?= second b).
Qed.

Lemma datetime_le_lt_trans (a b c : datetime) :
  datetime_ok a = true -> datetime_ok b = true -> datetime_ok c = true ->
  datetime_le a b -> datetime_compare b c = Lt -> datetime_compare a c = Lt.
Proof.
  intros Ha Hb Hc. unfold datetime_le.
  rewrite !datetime_compare_rank by assumption.
  intros Hab Hbc. rewrite N.compare_lt_iff in *.
  destruct (N.compare_spec (rank a) (rank b)); [lia | lia | congruence].
Qed.

Lemma datetime_lt_le_trans (a b c : datetime) :
  datetime_ok a = true -> datetime_ok b = true -> datetime_ok c = true ->
  datetime_compare a b = Lt -> datetime_le b c -> datetime_compare a c = Lt.
Proof.
  intros Ha Hb Hc. unfold datetime_le.
  rewrite !datetime_compare_rank by assumption.
  intros Hab Hbc. rewrite N.compare_lt_iff in *.
  destruct (N.compare_spec (rank b) (rank c)); [lia | lia | congruence].
Qed.

Lemma datetime_le_refl (a : datetime) : datetime_le a a.
Proof.
  unfold datetime_le, datetime_compare. now rewrite !N.compare_refl.
Qed.

(** *** Comparing timestamps as the session code does *)

Lemma str_lt_isoformat (a b : datetime) :
  datetime_ok a = true -> datetime_ok b = true ->
  str_lt (isoformat a) (isoformat b) = true <-> datetime_compare a b = Lt.
Proof.
  intros Ha Hb. unfold str_lt, String.ltb.
  rewrite isoformat_compare by assumption.
  destruct (datetime_compare a b); split; congruence.
Qed.

Lemma str_gt_isoformat (a b : datetime) :
  datetime_ok a = true -> datetime_ok b = true ->
  str_gt (isoformat a) (isoformat b) = true <-> datetime_compare b a = Lt.
Proof. intros Ha Hb. unfold str_gt. now apply (str_lt_isoformat b a). Qed.

(** An expiry that the clock has not passed is not less than the clock. *)
Lemma str_lt_isoformat_le (now expires : datetime) :
  datetime_ok now = true -> datetime_ok expires = true ->
  datetime_le now expires ->
  str_lt (isoformat expires) (isoformat now) = false.
Proof.
  intros Hn He Hle. apply not_true_is_false. intros Hlt.
  apply str_lt_isoformat in Hlt; try assumption.
  apply Hle. rewrite datetime_compare_antisym, Hlt. reflexivity.
Qed.

(** The empty string, which stands for a missing [expires_at], is below
    every timestamp. *)
Lemma str_lt_empty_isoformat (now : datetime) : str_lt "" (isoformat now) = true.
Proof. reflexivity. Qed.

(** *** Adding the session duration *)

Lemma add_hours_24 (d : datetime) :
  hour d < 24 -> add_hours d 24 = next_day d.
Proof.
  intros Hh. unfold add_hours.
  replace ((hour d + 24) / 24) with 1
    by (apply (N.div_unique _ _ _ (hour d)); lia).
  replace ((hour d + 24) mod 24) with (hour d)
    by (apply (N.mod_unique _ _ 1); lia).
  simpl. unfold next_day; simpl.
  destruct d; simpl.
  repeat match goal with
         | |- context [if ?c then _ else _] => destruct c
         end; reflexivity.
Qed.

Lemma days_in_month_ge (y m : N) : 28 <= days_in_month y m.
Proof.
  unfold days_in_month.
  repeat match goal with
         | |- context [match ?x with _ => _ end] => destruct x
         end; lia.
Qed.

Lemma next_day_ok (d e : datetime) :
  datetime_ok d = true -> next_day d = Some e ->
  datetime_ok e = true /\ datetime_compare d e = Lt.
Proof.
  intros Hd Hn. pose proof (datetime_ok_bounds d Hd) as B.
  unfold next_day, MAXYEAR in Hn.
  destruct (N.ltb_spec (day d) (days_in_month (year d) (month d))) as [L1|L1];
    [|destruct (N.ltb_spec (month d) 12) as [L2|L2];
      [|destruct (N.ltb_spec (year d) 9999) as [L3|L3]; [|discriminate]]];
    injection Hn as <-.
  - split.
    + unfold datetime_ok, MINYEAR, MAXYEAR; simpl.
      repeat (apply andb_true_intro; split);
        first [apply N.leb_le | apply N.ltb_lt]; lia.
    + unfold datetime_compare; simpl. rewrite !N.compare_refl; simpl.
      replace (day d ?= day d + 1) with Lt
        by (symmetry; apply N.compare_lt_iff; lia).
      reflexivity.
  - pose proof (days_in_month_ge (year d) (month d + 1)). split.
    + unfold datetime_ok, MINYEAR, MAXYEAR; simpl.
      repeat (apply andb_true_intro; split);
        first [apply N.leb_le | apply N.ltb_lt]; lia.
    + unfold datetime_compare; simpl. rewrite !N.compare_refl; simpl.
      replace (month d ?= month d + 1) with Lt
        by (symmetry; apply N.compare_lt_iff; lia).
      reflexivity.
  - pose proof (days_in_month_ge (year d + 1) 1). split.
    + unfold datetime_ok, MINYEAR, MAXYEAR; simpl.
      repeat (apply andb_true_intro; split);
        first [apply N.leb_le | apply N.ltb_lt]; lia.
    + unfold datetime_compare; simpl.
      replace (year d ?= year d + 1) with Lt
        by (symmetry; apply N.compare_lt_iff; lia).
      reflexivity.
Qed.

(** The expiry [create_session] computes is a valid datetime after the
    clock reading it was computed from. *)
Lemma add_session_duration (d e : datetime) :
  datetime_ok d = true -> add_hours d Auth.SESSION_DURATION_HOURS = Some e ->
  datetime_ok e = true /\ datetime_compare d e = Lt.
Proof.
  intros Hd He. unfold Auth.SESSION_DURATION_HOURS in He.
  rewrite add_hours_24 in He by (apply datetime_ok_bounds in Hd; lia).
  now apply next_day_ok.
Qed.

(** It exists unless the day after would be past year 9999. *)
Lemma add_session_duration_total (d : datetime) :
  datetime_ok d = true -> year d < 9999 ->
  exists e, add_hours d Auth.SESSION_DURATION_HOURS = Some e.
Proof.
  intros Hd Hy. unfold Auth.SESSION_DURATION_HOURS.
  rewrite add_hours_24 by (apply datetime_ok_bounds in Hd; lia).
  unfold next_day, MAXYEAR.
  destruct (_ <? days_in_month _ _); [eauto|].
  destruct (month d <? 12); [eauto|].
  destruct (N.ltb_spec (year d) 9999); [eauto|lia].
Qed.

End ClockFacts.

(* ===================================================================== *)
(** ** Facts about the timeline                                          *)
(* ===================================================================== *)

Module TimelineFacts.
Import Clock Timeline ClockFacts.
Local Open Scope N_scope.

Example ordinal_of_a_leap_day :
  toordinal (mk_datetime 2024 2 29 0 0 0 0) = 738945.
Proof. reflexivity. Qed.

Ltac divmod x k :=
  let q := fresh "q" in let r := fresh "r" in
  pose proof (N.div_mod x k ltac:(lia));
  pose proof (N.mod_lt x k ltac:(lia));
  remember (x / k) as q; remember (x mod k) as r.

Lemma days_before_year_succ (y : N) :
  1 <= y ->
  days_before_year (y + 1) = days_before_year y + 365 + (if is_leap y then 1 else 0).
Proof.
  intros Hy. unfold days_before_year, is_leap. cbv zeta.
  replace (y + 1 - 1) with y by lia.
  divmod y 4. divmod y 100. divmod y 400.
  divmod (y - 1) 4. divmod (y - 1) 100. divmod (y - 1) 400.
  destruct (N.eqb_spec r 0), (N.eqb_spec r0 0), (N.eqb_spec r1 0);
    cbn [andb orb negb]; lia.
Qed.

Lemma days_before_year_mono (y y' : N) :
  1 <= y -> y <= y' -> days_before_year y <= days_before_year y'.
Proof.
  intros Hy Hle. replace y' with (y + N.of_nat (N.to_nat (y' - y))) by lia.
  induction (N.to_nat (y' - y)) as [|n IH].
  - replace (y + N.of_nat 0) with y by lia. lia.
  - replace (y + N.of_nat (S n)) with (y + N.of_nat n + 1) by lia.
    rewrite days_before_year_succ by lia.
    destruct (is_leap _); lia.
Qed.

Lemma days_in_months_mono (y : N) (j k : nat) :
  (j <= k)%nat -> days_in_months y j <= days_in_months y k.
Proof.
  induction 1 as [|k Hle IH]; [lia|]. cbn [days_in_months]. lia.
Qed.

Lemma days_in_year (y : N) :
  days_in_months y 12 = 365 + (if is_leap y then 1 else 0).
Proof.
  unfold days_in_months. cbn [N.of_nat Pos.of_succ_nat Pos.succ].
  unfold days_in_month. destruct (is_leap y); reflexivity.
Qed.

Lemma days_before_month_succ (y m : N) :
  1 <= m -> days_before_month y (m + 1) = days_before_month y m + days_in_month y m.
Proof.
  intros Hm. unfold days_before_month.
  replace (N.to_nat (m + 1 - 1)) with (S (N.to_nat (m - 1))) by lia.
  cbn [days_in_months]. f_equal. f_equal. lia.
Qed.

Lemma ordinal_lt (a b : datetime) :
  datetime_ok a = true -> datetime_ok b = true ->
  year a < year b \/
  (year a = year b /\
   (month a < month b \/ (month a = month b /\ day a < day b))) ->
  toordinal a < toordinal b.
Proof.
  intros Ha Hb. apply datetime_ok_bounds in Ha, Hb.
  unfold toordinal.
  assert (forall y m, 1 <= m <= 12 ->
            days_before_month y m + days_in_month y m <= days_in_months y 12) as Hyear.
  { intros y m Hm. rewrite <- days_before_month_succ by lia.
    apply days_in_months_mono. lia. }
  intros [Hy|[Hy [Hm|[Hm Hd]]]].
  - pose proof (Hyear (year a) (month a) ltac:(lia)) as H1.
    rewrite days_in_year in H1.
    pose proof (days_before_year_succ (year a) ltac:(lia)) as H2.
    pose proof (days_before_year_mono (year a + 1) (year b) ltac:(lia) ltac:(lia)) as H3.
    lia.
  - rewrite Hy in *.
    assert (days_before_month (year b) (month a + 1)
            <= days_before_month (year b) (month b)) as H1
      by (apply days_in_months_mono; lia).
    rewrite days_before_month_succ in H1 by lia. lia.
  - rewrite Hy, Hm in *. lia.
Qed.

Lemma toordinal_compare (a b : datetime) :
  datetime_ok a = true -> datetime_ok b = true ->
  lex (year a ?= year b) (lex (month a ?= month b) (day a ?= day b))
    = (toordinal a ?= toordinal b).
Proof.
  intros Ha Hb.
  pose proof (ordinal_lt a b Ha Hb) as Hab.
  pose proof (ordinal_lt b a Hb Ha) as Hba.
  destruct (N.compare_spec (year a) (year b)) as [Ey|Ly|Gy]; cbn [lex].
  - destruct (N.compare_spec (month a) (month b)) as [Em|Lm|Gm]; cbn [lex].
    + destruct (N.compare_spec (day a) (day b)) as [Ed|Ld|Gd]; symmetry.
      * apply N.compare_eq_iff. unfold toordinal. now rewrite Ey, Em, Ed.
      * apply N.compare_lt_iff. apply Hab. auto.
      * apply N.compare_gt_iff. apply Hba. auto.
    + symmetry. apply N.compare_lt_iff. apply Hab. auto.
    + symmetry. apply N.compare_gt_iff. apply Hba. auto.
  - symmetry. apply N.compare_lt_iff. apply Hab. auto.
  - symmetry. apply N.compare_gt_iff. apply Hba. auto.
Qed.

Lemma to_microseconds_compare (a b : datetime) :
  datetime_ok a = true -> datetime_ok b = true ->
  datetime_compare a b = (to_microseconds a ?= to_microseconds b).
Proof.
  intros Ha Hb.
  pose proof (toordinal_compare a b Ha Hb) as Hord.
  apply datetime_ok_bounds in Ha, Hb.
  unfold datetime_compare, to_microseconds.
  rewrite <- !lex_compare_base by lia. rewrite <- Hord.
  now destruct (year a ?= year b), (month a ?= month b), (day a ?= day b),
    (hour a ?= hour b), (minute a ?= minute b), (second a ?= second b).
Qed.

Lemma next_day_elapsed (d e : datetime) :
  datetime_ok d = true -> next_day d = Some e ->
  to_microseconds e = to_microseconds d + 24 * HOUR.
Proof.
  intros Hd Hn. pose proof (datetime_ok_bounds d Hd) as B.
  assert (toordinal e = toordinal d + 1 /\ hour e = hour d /\ minute e = minute d /\
          second e = second d /\ microsecond e = microsecond d) as (Ho & Hh & Hm & Hs & Hu).
  { unfold next_day, MAXYEAR in Hn.
    destruct (N.ltb_spec (day d) (days_in_month (year d) (month d))) as [L1|L1];
      [|destruct (N.ltb_spec (month d) 12) as [L2|L2];
        [|destruct (N.ltb_spec (year d) 9999) as [L3|L3]; [|discriminate]]];
      injection Hn as <-; cbn [hour minute second microsecond];
      (split; [|repeat split]); unfold toordinal; cbn [year month day].
    - lia.
    - rewrite days_before_month_succ by lia.
      change (days_before_month (year d) 1) with 0. lia.
    - rewrite days_before_year_succ by lia.
      assert (month d = 12) as Hm12 by lia.
      pose proof (days_in_year (year d)) as Hy.
      change 12%nat with (S 11) in Hy. cbn [days_in_months] in Hy.
      unfold days_before_month. rewrite Hm12.
      change (N.to_nat (12 - 1)) with 11%nat.
      change (N.to_nat (1 - 1)) with 0%nat. cbn [days_in_months].
      change (N.of_nat 12) with 12 in Hy.
      rewrite Hm12 in L1, B. lia. }
  unfold to_microseconds, HOUR. rewrite Ho, Hh, Hm, Hs, Hu. lia.
Qed.

(** The expiry [create_session] computes is the session duration later,
    to the microsecond. *)
Lemma add_session_duration_elapsed (d e : datetime) :
  datetime_ok d = true -> add_hours d Auth.SESSION_DURATION_HOURS = Some e ->
  to_microseconds e = to_microseconds d + Auth.SESSION_DURATION_HOURS * HOUR.
Proof.
  intros Hd He. unfold Auth.SESSION_DURATION_HOURS in *.
  rewrite add_hours_24 in He by (apply datetime_ok_bounds in Hd; lia).
  now apply next_day_elapsed.
Qed.

Lemma to_microseconds_le (a b : datetime) :
  datetime_ok a = true -> datetime_ok b = true ->
  to_microseconds a <= to_microseconds b -> datetime_le a b.
Proof.
  intros Ha Hb Hle. unfold datetime_le.
  rewrite (to_microseconds_compare a b Ha Hb). exact Hle.
Qed.

End TimelineFacts.

(* ===================================================================== *)
(** ** Facts about the session store                                     *)
(* ===================================================================== *)

Module AuthFacts.
Import Clock Auth Timeline AuthRuns ClockFacts TimelineFacts.

Lemma get_expires_at_new user t_created e :
  get_expires_at (new_session user t_created e) = isoformat e.
Proof. reflexivity. Qed.

Section WithDigest.

Variable sha256_hexdigest : string -> string.

Lemma create_session_inv user session_id t_clean t_expiry t_created f tok f' :
  create_session sha256_hexdigest user session_id t_clean t_expiry t_created f
    = Some (tok, f') ->
  exists e, add_hours t_expiry SESSION_DURATION_HOURS = Some e /\
            tok = session_id /\
            f' = Stored (<[sha256_hexdigest session_id := new_session user t_created e]>
                           (_clean_expired_sessions t_clean (_load_sessions f))).
Proof.
  unfold create_session. destruct (add_hours _ _) as [e|]; [|discriminate].
  intros [= <- <-]. exists e. auto.
Qed.

Lemma clean_lookup now (s : sessions) k data :
  _clean_expired_sessions now s !! k = Some data <->
  s !! k = Some data /\ str_gt (get_expires_at data) (isoformat now) = true.
Proof. unfold _clean_expired_sessions. apply map_lookup_filter_Some. Qed.

Lemma verify_session_live session_id now f data :
  session_id <> "" ->
  _load_sessions f !! sha256_hexdigest session_id = Some data ->
  str_lt (get_expires_at data) (isoformat now) = false ->
  verify_session sha256_hexdigest session_id now f = (true, f).
Proof.
  intros Hne Hl Hlt. unfold verify_session.
  destruct (decide (session_id = "")); [done|]. now rewrite Hl, Hlt.
Qed.

Lemma verify_session_expired session_id now f data :
  session_id <> "" ->
  _load_sessions f !! sha256_hexdigest session_id = Some data ->
  str_lt (get_expires_at data) (isoformat now) = true ->
  verify_session sha256_hexdigest session_id now f
    = (false, Stored (delete (sha256_hexdigest session_id) (_load_sessions f))).
Proof.
  intros Hne Hl Hlt. unfold verify_session.
  destruct (decide (session_id = "")); [done|]. now rewrite Hl, Hlt.
Qed.

Lemma verify_session_absent session_id now f :
  _load_sessions f !! sha256_hexdigest session_id = None ->
  verify_session sha256_hexdigest session_id now f = (false, f).
Proof.
  intros Hl. unfold verify_session.
  destruct (decide (session_id = "")); [done|]. now rewrite Hl.
Qed.

Lemma verify_session_true session_id now f :
  (verify_session sha256_hexdigest session_id now f).1 = true ->
  session_id <> "" /\
  exists data, _load_sessions f !! sha256_hexdigest session_id = Some data /\
               str_lt (get_expires_at data) (isoformat now) = false.
Proof.
  unfold verify_session.
  destruct (decide (session_id = "")); [discriminate|].
  destruct (_load_sessions f !! sha256_hexdigest session_id) as [data|] eqn:Hl;
    [|discriminate].
  destruct (str_lt _ _) eqn:Hlt; [discriminate|]. eauto.
Qed.

(** What a verification leaves in the store is part of what it found. *)
Lemma verify_session_store session_id now f k data :
  _load_sessions (verify_session sha256_hexdigest session_id now f).2 !! k = Some data ->
  _load_sessions f !! k = Some data.
Proof.
  unfold verify_session.
  destruct (decide (session_id = "")); [done|].
  destruct (_load_sessions f !! sha256_hexdigest session_id) as [d|] eqn:Hl; [|done].
  destruct (str_lt _ _); [|done]. simpl.
  intros H. apply lookup_delete_Some in H. tauto.
Qed.

Lemma revoke_session_store session_id f :
  session_id <> "" ->
  _load_sessions (revoke_session sha256_hexdigest session_id f).2
    = delete (sha256_hexdigest session_id) (_load_sessions f).
Proof.
  intros Hne. unfold revoke_session.
  destruct (decide (session_id = "")); [done|].
  destruct (_load_sessions f !! sha256_hexdigest session_id) as [d|] eqn:Hl;
    simpl; [done|].
  symmetry. now apply delete_id.
Qed.

Lemma revoke_session_empty_token f :
  revoke_session sha256_hexdigest "" f = (false, f).
Proof. reflexivity. Qed.

Lemma revoke_all_sessions_store f : _load_sessions (revoke_all_sessions f) = ∅.
Proof. now destruct f. Qed.

(** *** Every record in the store was put there by [create_session] *)

Lemma made_by_app cs c k data :
  (forall session_id, k = sha256_hexdigest session_id -> leaves_alone session_id c) ->
  made_by sha256_hexdigest cs k data ->
  made_by sha256_hexdigest (cs ++ [c]) k data.
Proof.
  intros Hc (before & after & user & sid & tc & te & tcr & e & -> & Hall & Hk & Hrest).
  exists before, (after ++ [c])%list, user, sid, tc, te, tcr, e.
  split; [now rewrite <- app_assoc|].
  split; [|now split].
  apply Forall_app. split; [assumption|]. constructor; [|constructor]. now apply Hc.
Qed.

Lemma after_calls_snoc cs c f :
  after_calls sha256_hexdigest (cs ++ [c]) f
    = after_call sha256_hexdigest c (after_calls sha256_hexdigest cs f).
Proof. unfold after_calls. now rewrite fold_left_app. Qed.

Lemma get_session_user_file session_id f :
  (get_session_user sha256_hexdigest session_id f).2 = f.
Proof. unfold get_session_user. repeat case_match; reflexivity. Qed.

Lemma after_calls_made_by cs f0 k data :
  _load_sessions f0 = ∅ ->
  _load_sessions (after_calls sha256_hexdigest cs f0) !! k = Some data ->
  made_by sha256_hexdigest cs k data.
Proof.
  intros Hempty. revert k data.
  induction cs as [|c cs IH] using rev_ind; intros k data.
  - simpl. rewrite Hempty. now rewrite lookup_empty.
  - rewrite after_calls_snoc.
    set (f := after_calls sha256_hexdigest cs f0) in *.
    destruct c as [user sid tc te tcr | sid now | sid | sid | ]; simpl.
    + destruct (create_session _ _ _ _ _ _ _) as [[tok f']|] eqn:Hc.
      * apply create_session_inv in Hc as (e & He & -> & ->). simpl.
        destruct (decide (sha256_hexdigest sid = k)) as [<-|Hk].
        -- rewrite lookup_insert_eq. intros [= <-].
           exists cs, [], user, sid, tc, te, tcr, e.
           split; [reflexivity|]. split; [constructor|].
           split; [reflexivity|]. split; [assumption|reflexivity].
        -- rewrite lookup_insert_ne by done. intros H.
           apply clean_lookup in H as [H _].
           apply made_by_app; [now intros|]. now apply IH.
      * intros H. apply made_by_app; [now intros|]. now apply IH.
    + intros H. apply verify_session_store in H.
      apply made_by_app; [now intros|]. now apply IH.
    + rewrite get_session_user_file. intros H.
      apply made_by_app; [now intros|]. now apply IH.
    + destruct (decide (sid = "")) as [->|Hne].
      * rewrite revoke_session_empty_token. simpl.
        intros H. apply made_by_app; [intros; now left|]. now apply IH.
      * rewrite revoke_session_store by done. intros H.
        apply lookup_delete_Some in H as [Hk H].
        apply made_by_app; [|now apply IH].
        intros sid' ->. right. intros ->. now apply Hk.
    + rewrite revoke_all_sessions_store. now rewrite lookup_empty.
Qed.

Lemma expired_at_str_lt data now :
  datetime_ok now = true -> expired_at data now ->
  str_lt (get_expires_at data) (isoformat now) = true.
Proof.
  intros Hn (e & He & Hl & Hlt). unfold get_expires_at. rewrite Hl. simpl.
  now apply str_lt_isoformat.
Qed.

Lemma expired_at_later data now now' :
  datetime_ok now = true -> datetime_ok now' = true ->
  datetime_le now now' -> expired_at data now -> expired_at data now'.
Proof.
  intros Hn Hn' Hle (e & He & Hl & Hlt). exists e. repeat split; try assumption.
  now apply (datetime_lt_le_trans e now now').
Qed.

(** *** Properties of the session store *)

(** C6, for creation and revocation apart. [create_session] loads the full record set, keeps
    only the entries whose [expires_at] is after the clock reading of the
    cleaning, adds the new record and writes the whole set back: after a
    session creation no record of the store has an [expires_at] that the
    cleaning's clock reading has reached. [revoke_session] loads the set,
    deletes the one record of the revoked token and writes the rest back
    as it found it; it removes no other record, expired or not. *)
Theorem C6_create_cleans_revoke_only_deletes
    user session_id t_clean t_expiry t_created f tok f' :
  datetime_ok t_clean = true ->
  datetime_ok t_expiry = true ->
  datetime_le t_clean t_expiry ->
  create_session sha256_hexdigest user session_id t_clean t_expiry t_created f
    = Some (tok, f') ->
  (exists e,
     add_hours t_expiry SESSION_DURATION_HOURS = Some e /\
     f' = Stored (<[sha256_hexdigest session_id := new_session user t_created e]>
                    (_clean_expired_sessions t_clean (_load_sessions f)))) /\
  (forall k data,
     _load_sessions f' !! k = Some data ->
     str_gt (get_expires_at data) (isoformat t_clean) = true) /\
  (forall revoked g,
     revoked <> "" ->
     _load_sessions (revoke_session sha256_hexdigest revoked g).2
       = delete (sha256_hexdigest revoked) (_load_sessions g)).
Proof.
  intros Hc He Hle Hcreate.
  apply create_session_inv in Hcreate as (e & Hadd & -> & ->).
  split; [eauto|]. split.
  - intros k data. simpl.
    destruct (decide (sha256_hexdigest session_id = k)) as [<-|Hk].
    + rewrite lookup_insert_eq. intros [= <-].
      rewrite get_expires_at_new.
      destruct (add_session_duration _ _ He Hadd) as [Hok Hlt].
      apply str_gt_isoformat; try assumption.
      now apply (datetime_le_lt_trans t_clean t_expiry e).
    + rewrite lookup_insert_ne by done. intros H.
      now apply clean_lookup in H as [_ H].
  - intros revoked g Hne. now apply revoke_session_store.
Qed.

(** C7. For every principal and every store state, [create_session]
    followed by [verify_session] with the token it returned yields true
    and leaves the store as it is, at every clock reading up to 24 hours
    (the session duration, counted in microseconds) after the reading
    the creation took for the expiry. A token whose digest differs from
    that of the new token gains no validity from the creation; and on a
    store that started empty a token is accepted only if some
    [create_session] call stored a record under its digest, no later
    call revoked that session, and its expiry has not passed, so a token
    whose digest is that of no token issued is rejected. *)
Theorem C7_create_then_verify
    user session_id t_clean t_expiry t_created f tok f' now :
  session_id <> "" ->
  datetime_ok t_expiry = true ->
  datetime_ok now = true ->
  create_session sha256_hexdigest user session_id t_clean t_expiry t_created f
    = Some (tok, f') ->
  (to_microseconds now
     <= to_microseconds t_expiry + SESSION_DURATION_HOURS * HOUR)%N ->
  tok = session_id /\
  verify_session sha256_hexdigest tok now f' = (true, f') /\
  (forall other now',
     sha256_hexdigest other <> sha256_hexdigest tok ->
     (verify_session sha256_hexdigest other now' f').1 = true ->
     (verify_session sha256_hexdigest other now' f).1 = true) /\
  (forall cs f0 other now',
     _load_sessions f0 = ∅ ->
     (verify_session sha256_hexdigest other now'
        (after_calls sha256_hexdigest cs f0)).1 = true ->
     exists before after user' issued t_clean' t_expiry' t_created' e',
       cs = (before ++ CreateSession user' issued t_clean' t_expiry' t_created'
                    :: after)%list /\
       sha256_hexdigest issued = sha256_hexdigest other /\
       Forall (leaves_alone issued) after /\
       add_hours t_expiry' SESSION_DURATION_HOURS = Some e' /\
       str_lt (isoformat e') (isoformat now') = false) /\
  (forall cs f0 other now',
     _load_sessions f0 = ∅ ->
     (forall user' issued t_clean' t_expiry' t_created',
        In (CreateSession user' issued t_clean' t_expiry' t_created') cs ->
        sha256_hexdigest issued <> sha256_hexdigest other) ->
     (verify_session sha256_hexdigest other now'
        (after_calls sha256_hexdigest cs f0)).1 = false).
Proof.
  intros Hne Hte Hnow Hcreate Hsoon.
  apply create_session_inv in Hcreate as (e & Hadd & -> & ->).
  destruct (add_session_duration _ _ Hte Hadd) as [Hok _].
  pose proof (add_session_duration_elapsed _ _ Hte Hadd) as Helapsed.
  assert (forall cs f0 other now',
            _load_sessions f0 = ∅ ->
            (verify_session sha256_hexdigest other now'
               (after_calls sha256_hexdigest cs f0)).1 = true ->
            exists before after user' issued t_clean' t_expiry' t_created' e',
              cs = (before ++ CreateSession user' issued t_clean' t_expiry' t_created'
                           :: after)%list /\
              sha256_hexdigest issued = sha256_hexdigest other /\
              Forall (leaves_alone issued) after /\
              add_hours t_expiry' SESSION_DURATION_HOURS = Some e' /\
              str_lt (isoformat e') (isoformat now') = false) as Hissued.
  { intros cs f0 other now' Hempty Hv.
    apply verify_session_true in Hv as (Hne' & data & Hl & Hlt).
    apply after_calls_made_by in Hl
      as (before & after & u & sid & tc & te & tcr & e' & Hcs & Hall & Hk & He' & ->);
      [|assumption].
    exists before, after, u, sid, tc, te, tcr, e'.
    rewrite get_expires_at_new in Hlt. auto. }
  split; [reflexivity|]. split; [|split; [|split]].
  - apply (verify_session_live _ _ _ (new_session user t_created e)); [done| |].
    + simpl. apply lookup_insert_eq.
    + rewrite get_expires_at_new. apply str_lt_isoformat_le; try assumption.
      apply to_microseconds_le; try assumption. now rewrite Helapsed.
  - intros other now' Hother Hv.
    apply verify_session_true in Hv as (Hne' & data & Hl & Hlt).
    simpl in Hl. rewrite lookup_insert_ne in Hl by congruence.
    apply clean_lookup in Hl as [Hl _].
    now rewrite (verify_session_live _ _ _ data).
  - exact Hissued.
  - intros cs f0 other now' Hempty Hnone.
    destruct (verify_session _ _ _ _).1 eqn:Hv; [|reflexivity].
    apply (Hissued cs f0 other now' Hempty) in Hv
      as (before & after & u & sid & tc & te & tcr & e' & -> & Hk & _).
    exfalso. apply (Hnone u sid tc te tcr); [|exact Hk].
    apply in_or_app. right. now left.
Qed.

(** C8. For every session record whose [expires_at] has passed, the
    first [verify_session] call with the session's token returns false
    and deletes the record; every later call, on the store that call left
    or at any later clock reading, returns false as well. *)
Theorem C8_expired_session_rejected_and_deleted session_id f data now :
  session_id <> "" ->
  datetime_ok now = true ->
  _load_sessions f !! sha256_hexdigest session_id = Some data ->
  expired_at data now ->
  let f1 := (verify_session sha256_hexdigest session_id now f).2 in
  verify_session sha256_hexdigest session_id now f
    = (false, Stored (delete (sha256_hexdigest session_id) (_load_sessions f))) /\
  _load_sessions f1 !! sha256_hexdigest session_id = None /\
  (forall now', verify_session sha256_hexdigest session_id now' f1 = (false, f1)) /\
  (forall now', datetime_ok now' = true -> datetime_le now now' ->
                (verify_session sha256_hexdigest session_id now' f).1 = false).
Proof.
  intros Hne Hnow Hl Hexp f1.
  assert (verify_session sha256_hexdigest session_id now f
          = (false, Stored (delete (sha256_hexdigest session_id) (_load_sessions f)))) as Hv.
  { apply (verify_session_expired _ _ _ data); try assumption.
    now apply expired_at_str_lt. }
  assert (_load_sessions f1 !! sha256_hexdigest session_id = None) as Hgone.
  { unfold f1. rewrite Hv. simpl. apply lookup_delete_eq. }
  split; [exact Hv|]. split; [exact Hgone|]. split.
  - intros now'. now apply verify_session_absent.
  - intros now' Hnow' Hle.
    rewrite (verify_session_expired _ now' _ data); try assumption; [reflexivity|].
    apply expired_at_str_lt; [assumption|].
    now apply (expired_at_later data now now').
Qed.

(** C10. For every token whose digest is present in the session store,
    [get_session_user] returns the principal stored in the record and
    leaves the file as it is, whatever the record's [expires_at]; when
    that expiry has passed, [verify_session] on the same token returns
    false and deletes the record. *)
Theorem C10_get_session_user_ignores_expiry session_id f data :
  session_id <> "" ->
  _load_sessions f !! sha256_hexdigest session_id = Some data ->
  get_session_user sha256_hexdigest session_id f = (data !! "user", f) /\
  (forall now,
     datetime_ok now = true -> expired_at data now ->
     get_session_user sha256_hexdigest session_id f = (data !! "user", f) /\
     verify_session sha256_hexdigest session_id now f
       = (false, Stored (delete (sha256_hexdigest session_id) (_load_sessions f))) /\
     _load_sessions (verify_session sha256_hexdigest session_id now f).2
       !! sha256_hexdigest session_id = None).
Proof.
  intros Hne Hl.
  assert (get_session_user sha256_hexdigest session_id f = (data !! "user", f)) as Hg.
  { unfold get_session_user.
    destruct (decide (session_id = "")); [done|]. rewrite Hl.
    destruct (decide (data = ∅)) as [->|]; [|reflexivity].
    now rewrite lookup_empty. }
  split; [exact Hg|]. intros now Hnow Hexp. split; [exact Hg|].
  assert (verify_session sha256_hexdigest session_id now f
          = (false, Stored (delete (sha256_hexdigest session_id) (_load_sessions f)))) as Hv.
  { apply (verify_session_expired _ _ _ data); try assumption.
    now apply expired_at_str_lt. }
  split; [exact Hv|]. rewrite Hv. simpl. apply lookup_delete_eq.
Qed.

End WithDigest.

(** *** The properties at sample data *)

(** C6 does not hold of revocation: a revocation writes back the expired
    record it found. With a record that expired in 2020 and a live one in
    the store, revoking the live token leaves the expired record there. *)
Lemma C6_revoke_keeps_expired_record :
  let f := Stored {[ "old" := stale_record; "tok" := fresh_record ]} in
  revoke_session plain_digest "tok" f = (true, Stored {[ "old" := stale_record ]}) /\
  _load_sessions (revoke_session plain_digest "tok" f).2 !! "old" = Some stale_record /\
  expired_at stale_record t_noon /\
  str_gt (get_expires_at stale_record) (isoformat t_noon) = false.
Proof.
  repeat split.
  exists t_2020. repeat split.
Qed.

Lemma C6_witness :
  create_session plain_digest "admin" "tok" t_noon t_noon t_noon
                 (Stored {[ "old" := stale_record ]})
    = Some ("tok", Stored {[ "tok" := fresh_record ]}) /\
  str_gt (get_expires_at fresh_record) (isoformat t_noon) = true.
Proof.
  split; [vm_compute; reflexivity|].
  refine (proj1 (proj2 (C6_create_cleans_revoke_only_deletes plain_digest
            "admin" "tok" t_noon t_noon t_noon
            (Stored {[ "old" := stale_record ]})
            "tok" (Stored {[ "tok" := fresh_record ]}) _ _ _ _))
          "tok" fresh_record _).
  - reflexivity.
  - reflexivity.
  - unfold datetime_le. vm_compute. discriminate.
  - vm_compute. reflexivity.
  - reflexivity.
Defined.

Lemma C7_witness :
  verify_session plain_digest "tok" t_noon_next_day
                 (Stored {[ "tok" := fresh_record ]})
    = (true, Stored {[ "tok" := fresh_record ]}).
Proof.
  refine (proj1 (proj2 (C7_create_then_verify plain_digest
            "admin" "tok" t_noon t_noon t_noon Missing
            "tok" (Stored {[ "tok" := fresh_record ]}) t_noon_next_day
            _ _ _ _ _))).
  - discriminate.
  - reflexivity.
  - reflexivity.
  - vm_compute. reflexivity.
  - vm_compute. discriminate.
Defined.

Lemma C8_witness :
  verify_session plain_digest "old" t_noon
      (Stored {[ "old" := stale_record; "tok" := fresh_record ]})
    = (false, Stored (delete "old" {[ "old" := stale_record; "tok" := fresh_record ]})).
Proof.
  refine (proj1 (C8_expired_session_rejected_and_deleted plain_digest
            "old" (Stored {[ "old" := stale_record; "tok" := fresh_record ]})
            stale_record t_noon _ _ _ _)).
  - discriminate.
  - reflexivity.
  - reflexivity.
  - exists t_2020. repeat split.
Defined.

Lemma C10_witness :
  get_session_user plain_digest "old"
      (Stored {[ "old" := stale_record; "tok" := fresh_record ]})
    = (Some "admin", Stored {[ "old" := stale_record; "tok" := fresh_record ]}).
Proof.
  refine (proj1 (C10_get_session_user_ignores_expiry plain_digest
            "old" (Stored {[ "old" := stale_record; "tok" := fresh_record ]})
            stale_record _ _)).
  - discriminate.
  - reflexivity.
Defined.

End AuthFacts.

(* ===================================================================== *)
(** ** Facts about the droplet manager                                   *)
(* ===================================================================== *)

Module DropletFacts.
Import Py Droplet DropletRuns.
Local Open Scope py_scope.

Lemma events_since_push w ev : events_since w (push w ev) = [ev].
Proof. unfold events_since, push. simpl. apply drop_app_length. Qed.

Lemma events_since_push2 w ev1 ev2 :
  events_since w (push (push w ev1) ev2) = [ev1; ev2].
Proof.
  unfold events_since, push. simpl.
  rewrite <- app_assoc. apply drop_app_length.
Qed.

(** *** Only the endpoint writes the configuration file *)

Lemma keeps_file_ret {A} (a : A) : keeps_file (ret a).
Proof. intros w r w' [= <- <-]. reflexivity. Qed.

Lemma keeps_file_lift {A} (o : outcome A) : keeps_file (lift o).
Proof. intros w r w' [= <- <-]. reflexivity. Qed.

Lemma keeps_file_bind {A B} (m : M A) (k : A -> M B) :
  keeps_file m -> (forall a, keeps_file (k a)) -> keeps_file (bind m k).
Proof.
  intros Hm Hk w r w'. unfold bind.
  destruct (m w) as [[a|e] w1] eqn:E.
  - intros H. rewrite (Hk a _ _ _ H). exact (Hm _ _ _ E).
  - intros [= <- <-]. exact (Hm _ _ _ E).
Qed.

Lemma keeps_file_try_except {A} (m : M A) (h : exn -> M A) :
  keeps_file m -> (forall e, keeps_file (h e)) -> keeps_file (try_except m h).
Proof.
  intros Hm Hh w r w'. unfold try_except.
  destruct (m w) as [[a|e] w1] eqn:E.
  - intros [= <- <-]. exact (Hm _ _ _ E).
  - intros H. rewrite (Hh e _ _ _ H). exact (Hm _ _ _ E).
Qed.

Lemma keeps_file_try_except_status {A} (m : M A) (h : string -> M A) :
  keeps_file m -> (forall text, keeps_file (h text)) ->
  keeps_file (try_except_status m h).
Proof.
  intros Hm Hh w r w'. unfold try_except_status.
  destruct (m w) as [[a|[text msg|cls msg]] w1] eqn:E.
  - intros [= <- <-]. exact (Hm _ _ _ E).
  - intros H. rewrite (Hh text _ _ _ H). exact (Hm _ _ _ E).
  - intros [= <- <-]. exact (Hm _ _ _ E).
Qed.

Lemma keeps_file_request out self method endpoint payload :
  keeps_file (_request out self method endpoint payload).
Proof. intros w r w' [= <- <-]. reflexivity. Qed.

Lemma keeps_file_if {A} (b : bool) (m1 m2 : M A) :
  keeps_file m1 -> keeps_file m2 -> keeps_file (if b then m1 else m2).
Proof. now destruct b. Qed.

Ltac solve_keeps_file :=
  repeat first
    [ apply keeps_file_ret
    | apply keeps_file_lift
    | apply keeps_file_request
    | apply keeps_file_if
    | apply keeps_file_bind; [|intros ?]
    | apply keeps_file_try_except; [|intros ?]
    | apply keeps_file_try_except_status; [|intros ?] ].

Lemma keeps_file_find out self : keeps_file (_find_sandbox_droplet out self).
Proof. unfold _find_sandbox_droplet. solve_keeps_file. Qed.

Lemma keeps_file_status out self : keeps_file (get_sandbox_status out self).
Proof.
  unfold get_sandbox_status.
  apply keeps_file_bind; [apply keeps_file_find|intros ?]. solve_keeps_file.
Qed.

Lemma keeps_file_apply out self config :
  keeps_file (apply_network_config out self config).
Proof.
  unfold apply_network_config.
  apply keeps_file_bind; [apply keeps_file_status|intros ?].
  solve_keeps_file. intros w r w' [= <- <-]. reflexivity.
Qed.

(** *** Finding the sandbox *)

Lemma find_when_list_raises out self w e :
  respond out (log w) (list_request self) = Raise e ->
  _find_sandbox_droplet out self w = (Return JNull, push w (list_request self)).
Proof.
  intros H. unfold _find_sandbox_droplet, try_except, bind, _request.
  fold (list_request self). now rewrite H.
Qed.

Lemma find_when_list_answers out self w data ds :
  respond out (log w) (list_request self) = Return data ->
  py_get data "droplets" (JList []) = Return (JList ds) ->
  _find_sandbox_droplet out self w
    = (Return (match ds with d :: _ => d | [] => JNull end),
       push w (list_request self)).
Proof.
  intros H Hd. unfold _find_sandbox_droplet, try_except, bind, _request, lift.
  fold (list_request self). rewrite H, Hd.
  now destruct ds.
Qed.

(** *** What the operations do once the search has returned *)

Lemma status_when_not_found out self w w' d :
  _find_sandbox_droplet out self w = (Return d, w') -> truthy d = false ->
  get_sandbox_status out self w = (Return not_created, w').
Proof.
  intros H Ht. unfold get_sandbox_status, bind. now rewrite H, Ht.
Qed.

Lemma kill_when_not_found out self w w' d :
  _find_sandbox_droplet out self w = (Return d, w') -> truthy d = false ->
  kill_sandbox out self w = (Return no_sandbox_running, w').
Proof.
  intros H Ht. unfold kill_sandbox, bind. now rewrite H, Ht.
Qed.

Lemma spawn_when_not_found out self w w' d snapshot_id size :
  _find_sandbox_droplet out self w = (Return d, w') -> truthy d = false ->
  let req := create_request self (spawn_payload self snapshot_id size) in
  spawn_sandbox out self snapshot_id size w
    = (spawn_result (respond out (log w') req), push w' req).
Proof.
  intros H Ht req. unfold spawn_sandbox, bind. rewrite H, Ht.
  unfold try_except_status, bind, _request, lift, spawn_result.
  unfold req, create_request, spawn_payload.
  destruct (respond out (log w') _) as [data|[text msg|cls msg]]; try reflexivity.
  destruct data as [| | | | |fields]; try reflexivity. simpl.
  destruct (default (JDict []) (lookup_field "droplet" fields)); reflexivity.
Qed.

Lemma spawn_when_found out self w w' fields snapshot_id size :
  _find_sandbox_droplet out self w = (Return (JDict fields), w') -> fields <> [] ->
  spawn_sandbox out self snapshot_id size w
    = (Return (already_running (field "id" fields)), w').
Proof.
  intros H Hne. unfold spawn_sandbox, bind. rewrite H.
  destruct fields; [done|]. reflexivity.
Qed.

(** *** The loop over the networks *)

Lemma eq_str_public_private t :
  eq_str t "public" = true -> eq_str t "private" = false.
Proof.
  destruct t as [| | |s| |]; simpl; try discriminate.
  intros H. apply String.eqb_eq in H. now subst s.
Qed.

Lemma extract_ip_dict ips fields :
  extract_ip ips (JDict fields)
    = Return (if has_type "public" (JDict fields)
              then ip_address_of (JDict fields) else ips.1,
              if has_type "private" (JDict fields)
              then ip_address_of (JDict fields) else ips.2).
Proof.
  unfold extract_ip, has_type, ip_address_of, field. simpl.
  destruct (eq_str (default JNull (lookup_field "type" fields)) "public") eqn:Hpub.
  - now rewrite (eq_str_public_private _ Hpub).
  - destruct (eq_str _ "private"); now destruct ips.
Qed.

Lemma last_ip_cons ty fallback n rest :
  last_ip ty fallback (n :: rest)
    = last_ip ty (if has_type ty n then ip_address_of n else fallback) rest.
Proof.
  unfold last_ip. rewrite filter_cons.
  destruct (has_type ty n) eqn:Hn.
  - rewrite decide_True by reflexivity. rewrite last_cons.
    now destruct (last (filter _ rest)).
  - rewrite decide_False by discriminate. reflexivity.
Qed.

Lemma extract_ips_last networks : forall ips,
  Forall is_dict networks ->
  extract_ips ips networks
    = Return (last_ip "public" ips.1 networks, last_ip "private" ips.2 networks).
Proof.
  induction networks as [|n rest IH]; intros ips Hall.
  - now destruct ips.
  - inversion Hall as [|? ? Hn Hrest]; subst.
    destruct n as [| | | | |fields]; try contradiction.
    cbn [extract_ips]. rewrite extract_ip_dict, IH by assumption.
    now rewrite !last_ip_cons.
Qed.

(** *** Properties of the droplet manager *)

(** C3, with "last" for "first". For every provider-returned instance, also one whose
    network list has several public-typed or several private-typed
    entries, [get_sandbox_status] reports as public address the
    [ip_address] of the last public-typed entry of the list and as
    private address that of the last private-typed entry (null when
    there is none). *)
Theorem C3_status_reports_last_address
    out self w data fields rest netfields networks :
  respond out (log w) (list_request self) = Return data ->
  py_get data "droplets" (JList []) = Return (JList (JDict fields :: rest)) ->
  fields <> [] ->
  lookup_field "networks" fields = Some (JDict netfields) ->
  lookup_field "v4" netfields = Some (JList networks) ->
  Forall is_dict networks ->
  is_dict (default (JDict []) (lookup_field "size" fields)) ->
  is_dict (default (JDict []) (lookup_field "region" fields)) ->
  exists status,
    get_sandbox_status out self w
      = (Return (JDict status), push w (list_request self)) /\
    field "ip_address" status = last_ip "public" JNull networks /\
    field "private_ip" status = last_ip "private" JNull networks.
Proof.
  intros Hresp Hds Hne Hnet Hv4 Hall Hsize Hregion.
  unfold get_sandbox_status, bind.
  rewrite (find_when_list_answers _ _ _ _ _ Hresp Hds).
  destruct fields as [|kv fields']; [done|].
  set (fs := kv :: fields') in *.
  cbn [truthy negb]. unfold lift. cbn [py_get].
  rewrite Hnet. cbn [default from_option id py_get]. rewrite Hv4.
  cbn [default from_option id py_iter].
  rewrite (extract_ips_last networks (JNull, JNull) Hall).
  destruct (default (JDict []) (lookup_field "size" fs)) as [| | | | |sz];
    try contradiction.
  destruct (default (JDict []) (lookup_field "region" fs)) as [| | | | |rg];
    try contradiction.
  cbn [py_get ret fst snd]. eexists. split; [reflexivity|]. split; reflexivity.
Qed.

(** C5. For every [spawn_sandbox] call that the provider answers the
    tag query of: if no instance matches the tag, the call issues exactly
    one create request, and returns a "creating" result with the id of
    the instance the provider reports for it; if an instance exists, the
    call returns the "Sandbox already running" result with that
    instance's id and issues nothing but the tag query, so no create
    request and no mutation. *)
Theorem C5_spawn_is_guarded out self w data ds snapshot_id size :
  respond out (log w) (list_request self) = Return data ->
  py_get data "droplets" (JList []) = Return (JList ds) ->
  let w' := push w (list_request self) in
  let req := create_request self (spawn_payload self snapshot_id size) in
  let done := spawn_sandbox out self snapshot_id size w in
  (ds = [] ->
     events_since w done.2 = [list_request self; req] /\
     count is_create (events_since w done.2) = 1%nat /\
     (forall answer droplet,
        respond out (log w') req = Return answer ->
        py_get answer "droplet" (JDict []) = Return (JDict droplet) ->
        done.1 = Return (creating (field "id" droplet)))) /\
  (forall existing others,
     ds = JDict existing :: others -> existing <> [] ->
     done.1 = Return (already_running (field "id" existing)) /\
     events_since w done.2 = [list_request self] /\
     count is_create (events_since w done.2) = 0%nat /\
     count is_mutation (events_since w done.2) = 0%nat).
Proof.
  intros Hresp Hds w' req done.
  pose proof (find_when_list_answers _ _ _ _ _ Hresp Hds) as Hfind.
  split.
  - intros ->. unfold done.
    rewrite (spawn_when_not_found _ _ _ _ _ _ _ Hfind eq_refl).
    cbn [fst snd]. rewrite events_since_push2.
    split; [reflexivity|]. split; [reflexivity|].
    intros answer droplet Hans Hdrop. fold w' req. rewrite Hans.
    unfold spawn_result. now rewrite Hdrop.
  - intros existing others -> Hne. unfold done.
    rewrite (spawn_when_found _ _ _ _ _ _ _ Hfind Hne).
    cbn [fst snd]. rewrite events_since_push. repeat split.
Qed.

(** C9. If the provider's list-by-tag query fails with any exception,
    the failure is swallowed and reads as "no instance found":
    [get_sandbox_status] returns [not_created] with null addresses,
    [kill_sandbox] returns "No sandbox running" and issues no destroy
    request, [spawn_sandbox] passes its guard and issues the create
    request; and each of the three returns what it returns, and leaves
    the events it leaves, when the provider answers the query with an
    empty list instead. *)
Theorem C9_list_failure_reads_as_absent out self w e snapshot_id size :
  respond out (log w) (list_request self) = Raise e ->
  let w' := push w (list_request self) in
  let req := create_request self (spawn_payload self snapshot_id size) in
  get_sandbox_status out self w = (Return not_created, w') /\
  py_get not_created "ip_address" JNull = Return JNull /\
  py_get not_created "private_ip" JNull = Return JNull /\
  kill_sandbox out self w = (Return no_sandbox_running, w') /\
  count is_destroy (events_since w w') = 0%nat /\
  spawn_sandbox out self snapshot_id size w
    = (spawn_result (respond out (log w') req), push w' req) /\
  count is_create (events_since w (push w' req)) = 1%nat /\
  (forall out' data,
     respond out' (log w) (list_request self) = Return data ->
     py_get data "droplets" (JList []) = Return (JList []) ->
     respond out' (log w') req = respond out (log w') req ->
     get_sandbox_status out' self w = get_sandbox_status out self w /\
     kill_sandbox out' self w = kill_sandbox out self w /\
     spawn_sandbox out' self snapshot_id size w
       = spawn_sandbox out self snapshot_id size w).
Proof.
  intros Hraise w' req.
  pose proof (find_when_list_raises _ _ _ _ Hraise) as Hfind.
  pose proof (status_when_not_found _ _ _ _ _ Hfind eq_refl) as Hstatus.
  pose proof (kill_when_not_found _ _ _ _ _ Hfind eq_refl) as Hkill.
  pose proof (spawn_when_not_found _ _ _ _ _ snapshot_id size Hfind eq_refl) as Hspawn.
  split; [exact Hstatus|]. split; [reflexivity|]. split; [reflexivity|].
  split; [exact Hkill|]. split.
  { unfold w'. now rewrite events_since_push. }
  split; [exact Hspawn|]. split.
  { unfold w'. now rewrite events_since_push2. }
  intros out' data Hresp Hds Hsame.
  pose proof (find_when_list_answers _ _ _ _ _ Hresp Hds) as Hfind'.
  rewrite Hstatus, Hkill, Hspawn.
  rewrite (status_when_not_found _ _ _ _ _ Hfind' eq_refl).
  rewrite (kill_when_not_found _ _ _ _ _ Hfind' eq_refl).
  rewrite (spawn_when_not_found _ _ _ _ _ snapshot_id size Hfind' eq_refl).
  cbn zeta. fold w' req. now rewrite Hsame.
Qed.

(** *** The properties at sample providers *)

(** C3 does not hold with "first": with two public and two private entries
    the status carries the second of each, not the first. *)
Lemma C3_status_reports_not_first :
  exists status w',
    get_sandbox_status (scripted [Return (droplets [sample_droplet "active" two_of_each])])
                       sample_manager start = (Return (JDict status), w') /\
    field "ip_address" status = JStr "203.0.113.20" /\
    first_ip "public" two_of_each = JStr "203.0.113.10" /\
    field "private_ip" status = JStr "10.0.0.6" /\
    first_ip "private" two_of_each = JStr "10.0.0.5".
Proof.
  eexists. eexists. split; [vm_compute; reflexivity|]. repeat split.
Qed.

Lemma C3_witness :
  exists status,
    get_sandbox_status (scripted [Return (droplets [sample_droplet "active" two_of_each])])
                       sample_manager start
      = (Return (JDict status), push start (list_request sample_manager)) /\
    field "ip_address" status = last_ip "public" JNull two_of_each /\
    field "private_ip" status = last_ip "private" JNull two_of_each.
Proof.
  refine (C3_status_reports_last_address
            (scripted [Return (droplets [sample_droplet "active" two_of_each])])
            sample_manager start
            (droplets [sample_droplet "active" two_of_each])
            (sample_fields "active" two_of_each) []
            [ ("v4", JList two_of_each); ("v6", JList []) ] two_of_each
            _ _ _ _ _ _ _ _).
  - reflexivity.
  - reflexivity.
  - discriminate.
  - reflexivity.
  - reflexivity.
  - repeat constructor.
  - exact I.
  - exact I.
Defined.

Lemma C5_witness :
  (spawn_sandbox (scripted [Return (droplets [active_sandbox])])
                 sample_manager "snap-1" "s-2vcpu-2gb" start).1
    = Return (already_running (JInt 4242)).
Proof.
  refine (proj1 (proj2 (C5_spawn_is_guarded
            (scripted [Return (droplets [active_sandbox])])
            sample_manager start (droplets [active_sandbox]) [active_sandbox]
            "snap-1" "s-2vcpu-2gb" _ _)
          (sample_fields "active" [ network "public" "203.0.113.10";
                                    network "private" "10.0.0.5" ]) [] _ _)).
  - reflexivity.
  - reflexivity.
  - reflexivity.
  - discriminate.
Defined.

Lemma C9_witness :
  get_sandbox_status (scripted []) sample_manager start
    = (Return not_created, push start (list_request sample_manager)).
Proof.
  refine (proj1 (C9_list_failure_reads_as_absent
            (scripted []) sample_manager start connect_error
            "snap-1" "s-2vcpu-2gb" _)).
  reflexivity.
Defined.

Example spawn_on_empty_provider :
  spawn_sandbox (scripted [Return (droplets []);
                           Return (JDict [ ("droplet", JDict [ ("id", JInt 7) ]) ])])
                sample_manager "snap-1" "s-2vcpu-2gb" start
    = (Return (creating (JInt 7)),
       push (push start (list_request sample_manager))
            (create_request sample_manager
               (spawn_payload sample_manager "snap-1" "s-2vcpu-2gb"))).
Proof. reflexivity. Qed.

Example build_without_failure :
  let done := build_sandbox_snapshot
                (scripted [builder_created; action_accepted; action_accepted;
                           snapshots_listed; Return (JDict [])])
                sample_manager start in
  done.1 = Return (JDict [ ("status", JStr "ok");
                           ("snapshot_id", JInt 901);
                           ("message", JStr "Snapshot created successfully") ]) /\
  count is_create (log done.2) = 1%nat /\
  count is_destroy (log done.2) = 1%nat.
Proof. repeat split. Qed.

(** C1 does not hold of the code: once the builder exists, a failure of the
    shutdown request, of the snapshot request or of the snapshot listing
    ends the operation with an error result and no destroy request. *)
Theorem C1_builder_not_destroyed_on_failure :
  builder_left_running (scripted [builder_created]) /\
  builder_left_running (scripted [builder_created; action_accepted;
                                  Raise unprocessable]) /\
  builder_left_running (scripted [builder_created; action_accepted; action_accepted;
                                  Raise served_unavailable]).
Proof.
  repeat split; eexists; reflexivity.
Qed.

(** C4 does not hold of the code: a connection error on the create request
    escapes [spawn_sandbox], and one on the destroy request escapes
    [kill_sandbox]; neither is turned into an error result. *)
Theorem C4_connection_error_escapes :
  (spawn_sandbox (scripted [Return (droplets [])])
                 sample_manager "snap-1" "s-2vcpu-2gb" start).1
    = Raise connect_error /\
  (kill_sandbox (scripted [Return (droplets [active_sandbox])])
                sample_manager start).1
    = Raise connect_error.
Proof. split; reflexivity. Qed.

(** A failure with an HTTP status is turned into an error result. *)
Example status_error_is_reported :
  (spawn_sandbox (scripted [Return (droplets []); Raise unprocessable])
                 sample_manager "snap-1" "s-2vcpu-2gb" start).1
    = Return (error "Failed to create droplet: {'id': 'unprocessable_entity'}").
Proof. reflexivity. Qed.

End DropletFacts.

(* ===================================================================== *)
(** ** Facts about the network-config endpoint                           *)
(* ===================================================================== *)

Module MainFacts.
Import Py Droplet DropletRuns Main MainRuns.
Local Open Scope py_scope.

(** Whatever the provider and the agent do, a call that returns returns
    "ok" with the configuration, and has written the configuration. *)
Lemma update_network_config_result out mgr config w r w' :
  update_network_config out mgr config w = (Return r, w') ->
  r = JDict [ ("status", JStr "ok"); ("config", model_dump config) ] /\
  network_config_file w' = Some (model_dump config).
Proof.
  unfold update_network_config, bind, save_network_config.
  destruct (get_sandbox_status out mgr _) as [[status|e] w1] eqn:Hs; [|discriminate].
  apply DropletFacts.keeps_file_status in Hs. cbn [network_config_file] in Hs.
  unfold lift. destruct (py_get status "running" JNull) as [running|e]; [|discriminate].
  destruct (truthy running).
  - destruct (apply_network_config out mgr (model_dump config) w1)
      as [[applied|e] w2] eqn:Ha; [|discriminate].
    apply DropletFacts.keeps_file_apply in Ha.
    unfold ret. intros [= <- <-]. split; [reflexivity|congruence].
  - unfold ret. intros [= <- <-]. split; [reflexivity|assumption].
Qed.

Example update_without_sandbox :
  update_network_config (scripted [Return (droplets [])]) sample_manager
                        sample_update start
    = (Return (ok_with (model_dump sample_update)),
       mk_world [ SaveNetworkConfig (model_dump sample_update);
                  list_request sample_manager ]
                (Some (model_dump sample_update))).
Proof. reflexivity. Qed.

Example update_applied :
  let out := scripted [ Return (droplets [active_sandbox]);
                        Return (droplets [active_sandbox]);
                        Return (JDict [ ("status", JStr "ok");
                                        ("message", JStr "applied") ]) ] in
  let done := update_network_config out sample_manager sample_update start in
  done.1 = Return (ok_with (model_dump sample_update)) /\
  log done.2 = [ SaveNetworkConfig (model_dump sample_update);
                 list_request sample_manager;
                 list_request sample_manager;
                 agent_post (JStr "10.0.0.5") (model_dump sample_update) ].
Proof. split; reflexivity. Qed.

(** C2 does not hold of the code: with an active sandbox, the configuration is
    written and sent to the sandbox, and when the sending fails (the
    agent cannot be reached, or it answers with an error) the endpoint
    still returns "ok". *)
Theorem C2_failed_apply_reported_ok :
  apply_failure_hidden (scripted [ Return (droplets [active_sandbox]);
                                   Return (droplets [active_sandbox]) ]) /\
  apply_failure_hidden (scripted [ Return (droplets [active_sandbox]);
                                   Return (droplets [active_sandbox]);
                                   agent_refused ]).
Proof.
  split; (split; [eexists; reflexivity|repeat split]).
Qed.

End MainFacts.

(* ===================================================================== *)
(** ** More on the session store                                         *)
(* ===================================================================== *)

Module SessionProps.
Import Clock Auth AuthRuns SessionSamples ClockFacts AuthFacts.

Lemma datetime_le_iff_not_lt (now e : datetime) :
  datetime_le now e <-> datetime_compare e now <> Lt.
Proof.
  unfold datetime_le. rewrite (datetime_compare_antisym now e).
  destruct (datetime_compare now e); simpl; split; congruence.
Qed.

Lemma verify_session_fst_live sha256_hexdigest session_id now f data :
  session_id <> "" ->
  _load_sessions f !! sha256_hexdigest session_id = Some data ->
  (verify_session sha256_hexdigest session_id now f).1
    = negb (str_lt (get_expires_at data) (isoformat now)).
Proof.
  intros Hne Hl. unfold verify_session.
  destruct (decide (session_id = "")); [done|]. rewrite Hl.
  now destruct (str_lt _ _).
Qed.

Lemma get_expires_at_iso (data : session) e :
  data !! "expires_at" = Some (isoformat e) -> get_expires_at data = isoformat e.
Proof. intros H. unfold get_expires_at. now rewrite H. Qed.

Lemma clean_lookup_iso now (s : sessions) k data e :
  data !! "expires_at" = Some (isoformat e) ->
  datetime_ok e = true -> datetime_ok now = true ->
  s !! k = Some data ->
  (_clean_expired_sessions now s !! k = Some data <-> datetime_compare now e = Lt) /\
  (datetime_le e now -> _clean_expired_sessions now s !! k = None).
Proof.
  intros Hexp He Hnow Hl. split.
  - rewrite clean_lookup, (get_expires_at_iso _ _ Hexp).
    rewrite (str_gt_isoformat e now He Hnow). tauto.
  - intros Hle.
    destruct (_clean_expired_sessions _ _ !! _) as [d|] eqn:Hd; [|reflexivity].
    apply clean_lookup in Hd as [Hd Hgt]. rewrite Hl in Hd. injection Hd as <-.
    rewrite (get_expires_at_iso _ _ Hexp) in Hgt.
    apply str_gt_isoformat in Hgt; try assumption.
    apply datetime_le_iff_not_lt in Hle. contradiction.
Qed.

Lemma create_session_other sha256_hexdigest
    user session_id t_clean t_expiry t_created f tok f' k :
  create_session sha256_hexdigest user session_id t_clean t_expiry t_created f
    = Some (tok, f') ->
  k <> sha256_hexdigest session_id ->
  _load_sessions f' !! k = _clean_expired_sessions t_clean (_load_sessions f) !! k.
Proof.
  intros Hc Hk. apply create_session_inv in Hc as (e & _ & _ & ->). simpl.
  now rewrite lookup_insert_ne by congruence.
Qed.

Lemma create_session_record sha256_hexdigest
    user session_id t_clean t_expiry t_created f tok f' :
  create_session sha256_hexdigest user session_id t_clean t_expiry t_created f
    = Some (tok, f') ->
  tok = session_id /\
  exists e, add_hours t_expiry SESSION_DURATION_HOURS = Some e /\
            _load_sessions f' !! sha256_hexdigest tok
              = Some (new_session user t_created e).
Proof.
  intros Hc. apply create_session_inv in Hc as (e & Hadd & -> & ->).
  split; [reflexivity|]. exists e. split; [assumption|].
  simpl. apply lookup_insert_eq.
Qed.

Lemma verify_session_iso sha256_hexdigest session_id f data e now :
  session_id <> "" ->
  _load_sessions f !! sha256_hexdigest session_id = Some data ->
  data !! "expires_at" = Some (isoformat e) ->
  datetime_ok e = true ->
  datetime_ok now = true ->
  (verify_session sha256_hexdigest session_id now f).1 = true <-> datetime_le now e.
Proof.
  intros Hne Hl Hexp He Hnow.
  rewrite (verify_session_fst_live _ _ _ _ data Hne Hl).
  rewrite (get_expires_at_iso _ _ Hexp), datetime_le_iff_not_lt.
  rewrite <- (str_lt_isoformat e now He Hnow).
  destruct (str_lt _ _); simpl; split; congruence.
Qed.

Section WithDigest.

Variable sha256_hexdigest : string -> string.

(** X1. After [revoke_session], the token is rejected by
    [verify_session] at every clock reading and has no user, a second
    revocation returns [False] and changes nothing, and every record
    under another digest is as it was. *)
Theorem X1_revoke_then_verify session_id f :
  let f1 := (revoke_session sha256_hexdigest session_id f).2 in
  (forall now, verify_session sha256_hexdigest session_id now f1 = (false, f1)) /\
  get_session_user sha256_hexdigest session_id f1 = (None, f1) /\
  revoke_session sha256_hexdigest session_id f1 = (false, f1) /\
  (forall k, k <> sha256_hexdigest session_id ->
             _load_sessions f1 !! k = _load_sessions f !! k).
Proof.
  intros f1. destruct (decide (session_id = "")) as [->|Hne].
  { repeat split. }
  assert (_load_sessions f1 !! sha256_hexdigest session_id = None) as Hgone.
  { unfold f1. rewrite revoke_session_store by done. apply lookup_delete_eq. }
  split; [intros now; now apply verify_session_absent|].
  split.
  { unfold get_session_user. destruct (decide (session_id = "")); [done|].
    now rewrite Hgone. }
  split.
  { unfold revoke_session at 1. destruct (decide (session_id = "")); [done|].
    now rewrite Hgone. }
  intros k Hk. unfold f1. rewrite revoke_session_store by done.
  now apply lookup_delete_ne.
Qed.

(** X2. After [revoke_all_sessions] no token is accepted, none has a
    user and none can be revoked; a file that did not exist is not
    created, one that did not parse is replaced by an empty store. *)
Theorem X2_revoke_all_rejects_every_token f session_id now :
  let f1 := revoke_all_sessions f in
  verify_session sha256_hexdigest session_id now f1 = (false, f1) /\
  get_session_user sha256_hexdigest session_id f1 = (None, f1) /\
  revoke_session sha256_hexdigest session_id f1 = (false, f1) /\
  (f1 = Missing <-> f = Missing) /\
  (f <> Missing -> f1 = Stored ∅).
Proof.
  intros f1.
  assert (_load_sessions f1 !! sha256_hexdigest session_id = None) as Hgone.
  { unfold f1. rewrite revoke_all_sessions_store. apply lookup_empty. }
  split; [now apply verify_session_absent|].
  split.
  { unfold get_session_user. destruct (decide (session_id = "")); [done|].
    now rewrite Hgone. }
  split.
  { unfold revoke_session. destruct (decide (session_id = "")); [done|].
    now rewrite Hgone. }
  unfold f1. destruct f; simpl; repeat split; try congruence; try discriminate.
Qed.

(** X3. [create_session] keeps the sessions of other tokens that are
    still to expire at the clock reading of its cleaning, so sessions
    coexist: such a token is accepted after the creation exactly when it
    was before. It drops the ones whose expiry that reading has reached:
    such a token is rejected afterwards at every clock reading. *)
Theorem X3_create_keeps_live_sessions
    user session_id t_clean t_expiry t_created f tok f' other data e :
  create_session sha256_hexdigest user session_id t_clean t_expiry t_created f
    = Some (tok, f') ->
  other <> "" ->
  sha256_hexdigest other <> sha256_hexdigest session_id ->
  _load_sessions f !! sha256_hexdigest other = Some data ->
  data !! "expires_at" = Some (isoformat e) ->
  datetime_ok e = true ->
  datetime_ok t_clean = true ->
  (datetime_compare t_clean e = Lt ->
     _load_sessions f' !! sha256_hexdigest other = Some data /\
     forall now, (verify_session sha256_hexdigest other now f').1
                 = (verify_session sha256_hexdigest other now f).1) /\
  (datetime_le e t_clean ->
     _load_sessions f' !! sha256_hexdigest other = None /\
     forall now, (verify_session sha256_hexdigest other now f').1 = false).
Proof.
  intros Hc Hne Hk Hl Hexp He Htc.
  rewrite (create_session_other _ _ _ _ _ _ _ _ _ _ Hc Hk).
  destruct (clean_lookup_iso t_clean _ _ _ _ Hexp He Htc Hl) as [Hkeep Hdrop].
  split.
  - intros Hlt. apply Hkeep in Hlt. split; [exact Hlt|]. intros now.
    rewrite (verify_session_fst_live _ _ _ _ data Hne Hl).
    apply verify_session_fst_live; [assumption|].
    now rewrite (create_session_other _ _ _ _ _ _ _ _ _ _ Hc Hk).
  - intros Hle. apply Hdrop in Hle. split; [exact Hle|]. intros now.
    rewrite verify_session_absent; [reflexivity|].
    now rewrite (create_session_other _ _ _ _ _ _ _ _ _ _ Hc Hk).
Qed.

(** X4. At the very clock reading of a session's expiry the two expiry
    tests disagree: [verify_session] still accepts the token and leaves
    the record, while the cleaning of a [create_session] that reads the
    same instant removes it, after which the token is rejected. *)
Theorem X4_expiry_instant_disagreement
    user session_id t_expiry t_created f tok f' other data e :
  other <> "" ->
  sha256_hexdigest other <> sha256_hexdigest session_id ->
  _load_sessions f !! sha256_hexdigest other = Some data ->
  data !! "expires_at" = Some (isoformat e) ->
  datetime_ok e = true ->
  create_session sha256_hexdigest user session_id e t_expiry t_created f
    = Some (tok, f') ->
  verify_session sha256_hexdigest other e f = (true, f) /\
  verify_session sha256_hexdigest other e f' = (false, f').
Proof.
  intros Hne Hk Hl Hexp He Hc. split.
  - apply (verify_session_live _ _ _ _ data); try assumption.
    rewrite (get_expires_at_iso _ _ Hexp).
    apply str_lt_isoformat_le; try assumption. apply datetime_le_refl.
  - apply verify_session_absent.
    rewrite (create_session_other _ _ _ _ _ _ _ _ _ _ Hc Hk).
    apply (clean_lookup_iso e _ _ _ _ Hexp He He Hl). apply datetime_le_refl.
Qed.

(** X5. A record without an [expires_at] entry counts as expired at
    every clock reading: [verify_session] rejects its token and deletes
    it, and the cleaning of [create_session] removes it. *)
Theorem X5_record_without_expiry_is_expired session_id f data :
  session_id <> "" ->
  _load_sessions f !! sha256_hexdigest session_id = Some data ->
  data !! "expires_at" = None ->
  (forall now,
     verify_session sha256_hexdigest session_id now f
       = (false, Stored (delete (sha256_hexdigest session_id) (_load_sessions f)))) /\
  (forall now,
     _clean_expired_sessions now (_load_sessions f)
       !! sha256_hexdigest session_id = None).
Proof.
  intros Hne Hl Hexp.
  assert (get_expires_at data = "") as Hget
    by (unfold get_expires_at; now rewrite Hexp).
  split; intros now.
  - apply (verify_session_expired _ _ _ _ data); try assumption.
    rewrite Hget. apply str_lt_empty_isoformat.
  - destruct (_clean_expired_sessions _ _ !! _) as [d|] eqn:Hd; [|reflexivity].
    apply clean_lookup in Hd as [Hd Hgt]. rewrite Hl in Hd. injection Hd as <-.
    rewrite Hget in Hgt. unfold str_gt in Hgt. now destruct (isoformat now).
Qed.

(** X6. A sessions file that is absent or does not parse reads as an
    empty store: every token is rejected and the file is left as it is
    (an unparsable file stays unparsable), and [create_session] replaces
    it by a store holding the new record alone. *)
Theorem X6_unreadable_file_is_empty f :
  f = Missing \/ f = Malformed ->
  (forall session_id now,
     verify_session sha256_hexdigest session_id now f = (false, f) /\
     get_session_user sha256_hexdigest session_id f = (None, f) /\
     revoke_session sha256_hexdigest session_id f = (false, f)) /\
  (forall user session_id t_clean t_expiry t_created tok f',
     create_session sha256_hexdigest user session_id t_clean t_expiry t_created f
       = Some (tok, f') ->
     exists e, add_hours t_expiry SESSION_DURATION_HOURS = Some e /\
               f' = Stored {[ sha256_hexdigest session_id
                              := new_session user t_created e ]}).
Proof.
  intros Hf.
  assert (_load_sessions f = ∅) as Hempty by (destruct Hf as [->| ->]; reflexivity).
  split.
  - intros session_id now.
    assert (_load_sessions f !! sha256_hexdigest session_id = None) as Hgone
      by (rewrite Hempty; apply lookup_empty).
    split; [now apply verify_session_absent|].
    split.
    + unfold get_session_user. destruct (decide (session_id = "")); [done|].
      now rewrite Hgone.
    + unfold revoke_session. destruct (decide (session_id = "")); [done|].
      now rewrite Hgone.
  - intros user session_id t_clean t_expiry t_created tok f' Hc.
    apply create_session_inv in Hc as (e & Hadd & -> & ->).
    exists e. split; [assumption|].
    rewrite Hempty. unfold _clean_expired_sessions.
    now rewrite map_filter_empty, insert_empty.
Qed.

(** X7. [verify_session] never adds a record and touches no record but
    the one of the token it is given: every other digest is looked up as
    before, and an accepted verification leaves the file as it is. *)
Theorem X7_verify_touches_one_record session_id now f :
  let done := verify_session sha256_hexdigest session_id now f in
  (forall k, k <> sha256_hexdigest session_id ->
             _load_sessions done.2 !! k = _load_sessions f !! k) /\
  (forall k data, _load_sessions done.2 !! k = Some data ->
                  _load_sessions f !! k = Some data) /\
  (done.1 = true -> done.2 = f).
Proof.
  intros done. unfold done. split; [|split].
  - intros k Hk. unfold verify_session.
    destruct (decide (session_id = "")); [done|].
    destruct (_load_sessions f !! sha256_hexdigest session_id); [|done].
    destruct (str_lt _ _); [|done]. simpl. now apply lookup_delete_ne.
  - intros k data. apply verify_session_store.
  - unfold verify_session.
    destruct (decide (session_id = "")); [done|].
    destruct (_load_sessions f !! sha256_hexdigest session_id); [|done].
    destruct (str_lt _ _); [discriminate|done].
Qed.

(** X8. Right after [create_session], [get_session_user] with the
    returned token gives the user the session was created for, also when
    a record was already stored under the same digest: the new record
    replaces it. *)
Theorem X8_create_then_get_user
    user session_id t_clean t_expiry t_created f tok f' :
  session_id <> "" ->
  create_session sha256_hexdigest user session_id t_clean t_expiry t_created f
    = Some (tok, f') ->
  get_session_user sha256_hexdigest tok f' = (Some user, f') /\
  exists e, add_hours t_expiry SESSION_DURATION_HOURS = Some e /\
            _load_sessions f' !! sha256_hexdigest tok
              = Some (new_session user t_created e).
Proof.
  intros Hne Hc.
  destruct (create_session_record _ _ _ _ _ _ _ _ _ Hc) as [-> (e & Hadd & Hl)].
  split; [|eauto].
  unfold get_session_user. destruct (decide (session_id = "")); [done|].
  rewrite Hl.
  destruct (decide (new_session user t_created e = ∅)) as [Hempty|_]; [|reflexivity].
  exfalso. assert (new_session user t_created e !! "user" = Some user) as Hu by reflexivity.
  rewrite Hempty in Hu. now rewrite lookup_empty in Hu.
Qed.

(** X9. The string comparisons of the store decide the order of the
    instants: for a record whose [expires_at] is the timestamp of [e],
    [verify_session] accepts the token exactly at the clock readings up
    to and including [e], and [_clean_expired_sessions] keeps the record
    exactly at the readings before [e]; this holds whether or not the
    timestamps carry a fraction of a second. *)
Theorem X9_expiry_tests_follow_the_clock session_id f data e now :
  session_id <> "" ->
  _load_sessions f !! sha256_hexdigest session_id = Some data ->
  data !! "expires_at" = Some (isoformat e) ->
  datetime_ok e = true ->
  datetime_ok now = true ->
  ((verify_session sha256_hexdigest session_id now f).1 = true
     <-> datetime_le now e) /\
  (_clean_expired_sessions now (_load_sessions f) !! sha256_hexdigest session_id
     = Some data <-> datetime_compare now e = Lt).
Proof.
  intros Hne Hl Hexp He Hnow. split.
  - now apply (verify_session_iso _ _ _ data).
  - now apply (clean_lookup_iso now _ _ _ _ Hexp He Hnow Hl).
Qed.


End WithDigest.

(** *** The properties at sample stores *)

Lemma X3_witness :
  _load_sessions (two_sessions fresh_record) !! "other" = Some fresh_record.
Proof.
  refine (proj1 (proj1 (X3_create_keeps_live_sessions plain_digest
            "admin" "tok" t_noon t_noon t_noon (one_session fresh_record)
            "tok" (two_sessions fresh_record) "other" fresh_record t_noon_next_day
            _ _ _ _ _ _ _) _)).
  - vm_compute. reflexivity.
  - discriminate.
  - discriminate.
  - reflexivity.
  - reflexivity.
  - reflexivity.
  - reflexivity.
  - reflexivity.
Defined.

Lemma X4_witness :
  verify_session plain_digest "other" t_noon (one_session noon_record)
    = (true, one_session noon_record) /\
  verify_session plain_digest "other" t_noon (Stored {[ "tok" := fresh_record ]})
    = (false, Stored {[ "tok" := fresh_record ]}).
Proof.
  refine (X4_expiry_instant_disagreement plain_digest
            "admin" "tok" t_noon t_noon (one_session noon_record)
            "tok" (Stored {[ "tok" := fresh_record ]}) "other" noon_record t_noon
            _ _ _ _ _ _).
  - discriminate.
  - discriminate.
  - reflexivity.
  - reflexivity.
  - reflexivity.
  - vm_compute. reflexivity.
Defined.

Lemma X5_witness :
  verify_session plain_digest "other" t_2020 (one_session bare_record)
    = (false, Stored (delete "other" {[ "other" := bare_record ]})).
Proof.
  refine (proj1 (X5_record_without_expiry_is_expired plain_digest
            "other" (one_session bare_record) bare_record _ _ _) t_2020).
  - discriminate.
  - reflexivity.
  - reflexivity.
Defined.

Lemma X6_witness :
  verify_session plain_digest "tok" t_noon Malformed = (false, Malformed).
Proof.
  refine (proj1 (proj1 (X6_unreadable_file_is_empty plain_digest Malformed _)
                   "tok" t_noon)).
  right. reflexivity.
Defined.

Lemma X8_witness :
  get_session_user plain_digest "tok" (two_sessions fresh_record)
    = (Some "admin", two_sessions fresh_record).
Proof.
  refine (proj1 (X8_create_then_get_user plain_digest
            "admin" "tok" t_noon t_noon t_noon (one_session fresh_record)
            "tok" (two_sessions fresh_record) _ _)).
  - discriminate.
  - vm_compute. reflexivity.
Defined.

Lemma X9_witness :
  (verify_session plain_digest "other" t_later (one_session fresh_record)).1 = true
    <-> datetime_le t_later t_noon_next_day.
Proof.
  refine (proj1 (X9_expiry_tests_follow_the_clock plain_digest
            "other" (one_session fresh_record) fresh_record t_noon_next_day t_later
            _ _ _ _ _)).
  - discriminate.
  - reflexivity.
  - reflexivity.
  - reflexivity.
  - reflexivity.
Defined.


End SessionProps.

(* ===================================================================== *)
(** ** The session-gated routes                                          *)
(* ===================================================================== *)

Module EndpointProps.
Import Clock Auth AuthRuns Py Endpoints SessionSamples ClockFacts AuthFacts SessionProps.

Lemma start_session_inv sha256_hexdigest session_id t_clean t_expiry t_created a r a' :
  start_session sha256_hexdigest session_id t_clean t_expiry t_created a = (Served r, a') ->
  r = RedirectResponse "/" 303 (Some (session_cookie session_id)) None /\
  secrets a' = secrets a /\
  create_session sha256_hexdigest "admin" session_id t_clean t_expiry t_created (store a)
    = Some (session_id, store a').
Proof.
  unfold start_session.
  destruct (create_session _ _ _ _ _ _ _) as [[sid f]|] eqn:Hc; [|discriminate].
  pose proof (create_session_inv _ _ _ _ _ _ _ _ _ Hc) as (e & _ & -> & _).
  intros [= <- <-]. auto.
Qed.

Lemma cookie_set_start_session sha256_hexdigest session_id t_clean t_expiry t_created a :
  cookie_set (start_session sha256_hexdigest session_id
                            t_clean t_expiry t_created a).1 = None ->
  (start_session sha256_hexdigest session_id t_clean t_expiry t_created a).2 = a.
Proof.
  unfold start_session.
  destruct (create_session _ _ _ _ _ _ _) as [[sid f]|]; [discriminate|reflexivity].
Qed.

Section WithSettings.

Variable sha256_hexdigest : string -> string.
Variable totp_verify : string -> string -> bool.
Variable domain : string.

Lemma verify_auth_live cookies now a session_id data :
  cookies !! SESSION_COOKIE_NAME = Some session_id ->
  session_id <> "" ->
  _load_sessions (store a) !! sha256_hexdigest session_id = Some data ->
  str_lt (get_expires_at data) (isoformat now) = false ->
  verify_auth sha256_hexdigest cookies now a
    = (Served (Response 200 [("X-User", x_user_of data)]),
       mk_app (secrets a) (store a)).
Proof.
  intros Hc Hne Hl Hlt. unfold verify_auth. rewrite Hc.
  destruct (decide (session_id = "")); [done|].
  rewrite (verify_session_live _ _ _ _ data Hne Hl Hlt). simpl.
  unfold get_session_user. destruct (decide (session_id = "")); [done|].
  rewrite Hl. unfold x_user_of.
  destruct (decide (data = ∅)) as [->|]; [now rewrite lookup_empty|reflexivity].
Qed.

(** X11. [verify_auth] answers 200 only for a cookie holding a non-empty
    token whose record is in the store and has not expired; the store is
    then left as it is and [X-User] is the record's user, or ["admin"]
    when the record has none or an empty one. In every other case it
    raises the 401 [HTTPException]; no other exception leaves it, and it
    never touches the enrolment secret. *)
Theorem X11_forward_auth cookies now a :
  let done := verify_auth sha256_hexdigest cookies now a in
  secrets done.2 = secrets a /\
  (done.1 = HTTPException 401 "Unauthorized" \/
   exists session_id data,
     cookies !! SESSION_COOKIE_NAME = Some session_id /\
     session_id <> "" /\
     _load_sessions (store a) !! sha256_hexdigest session_id = Some data /\
     str_lt (get_expires_at data) (isoformat now) = false /\
     store done.2 = store a /\
     done.1 = Served (Response 200 [("X-User", x_user_of data)])).
Proof.
  intros done. unfold done, verify_auth.
  destruct (cookies !! SESSION_COOKIE_NAME) as [session_id|] eqn:Hc; [|auto].
  destruct (decide (session_id = "")) as [|Hne]; [auto|].
  destruct (verify_session _ _ _ _) as [valid f] eqn:Hv.
  destruct valid; simpl; [|auto].
  assert ((verify_session sha256_hexdigest session_id now (store a)).1 = true) as Hv1
    by now rewrite Hv.
  apply verify_session_true in Hv1 as (_ & data & Hl & Hlt).
  rewrite (verify_session_live _ _ _ _ data Hne Hl Hlt) in Hv. injection Hv as <-.
  unfold get_session_user. destruct (decide (session_id = "")); [done|].
  rewrite Hl. split.
  - now destruct (decide (data = ∅)).
  - right. exists session_id, data. repeat split; try assumption.
    + now destruct (decide (data = ∅)).
    + unfold x_user_of.
      destruct (decide (data = ∅)) as [->|]; [now rewrite lookup_empty|reflexivity].
Qed.

(** X12. A login with an enrolled, non-empty secret and a code that
    verifies redirects to ["/"] with the session cookie, and a browser
    that sends this cookie back passes [verify_auth] as ["admin"] at
    every clock reading up to the session's expiry. *)
Theorem X12_login_then_forward_auth
    totp_code session_id t_clean t_expiry t_created a secret e now :
  secrets a = SecretFile (Some secret) ->
  secret <> "" ->
  totp_verify secret totp_code = true ->
  session_id <> "" ->
  datetime_ok t_expiry = true ->
  datetime_ok now = true ->
  add_hours t_expiry SESSION_DURATION_HOURS = Some e ->
  datetime_le now e ->
  exists a1,
    login sha256_hexdigest totp_verify domain totp_code session_id
          t_clean t_expiry t_created a
      = (Served (RedirectResponse "/" 303 (Some (session_cookie session_id)) None), a1) /\
    secrets a1 = secrets a /\
    verify_auth sha256_hexdigest (cookies_with (session_cookie session_id)) now a1
      = (Served (Response 200 [("X-User", "admin")]), a1).
Proof.
  intros Hs Hsecret Hcode Hne Hte Hnow Hadd Hle.
  unfold login, verify_totp. rewrite Hs. simpl.
  destruct (decide (secret = "")); [done|]. rewrite Hcode. simpl.
  unfold start_session, create_session. rewrite Hadd.
  eexists. split; [reflexivity|]. split; [simpl; now rewrite Hs|].
  destruct (add_session_duration _ _ Hte Hadd) as [He _].
  rewrite (verify_auth_live _ now _ session_id (new_session "admin" t_created e)).
  - reflexivity.
  - unfold cookies_with. simpl. apply lookup_singleton_eq.
  - assumption.
  - simpl. apply lookup_insert_eq.
  - now apply str_lt_isoformat_le.
Qed.

(** X13. [login] issues a session cookie only when a non-empty secret
    is enrolled and the code verifies against it, and the cookie then
    holds the new token; a login that sets no cookie leaves the secret
    and the session store exactly as they were. *)
Theorem X13_login_is_gated totp_code session_id t_clean t_expiry t_created a :
  let done := login sha256_hexdigest totp_verify domain totp_code session_id
                    t_clean t_expiry t_created a in
  (forall c, cookie_set done.1 = Some c ->
     value c = session_id /\
     exists secret, secrets a = SecretFile (Some secret) /\ secret <> "" /\
                    totp_verify secret totp_code = true) /\
  (cookie_set done.1 = None -> done.2 = a).
Proof.
  intros done. unfold done, login, verify_totp.
  destruct (secrets a) as [|e|[secret|]] eqn:Hs; simpl;
    try (split; [discriminate|reflexivity]).
  destruct (decide (secret = "")); [split; [discriminate|reflexivity]|].
  destruct (totp_verify secret totp_code) eqn:Hcode; simpl;
    [|split; [discriminate|reflexivity]].
  split; [|apply cookie_set_start_session].
  intros c. unfold start_session.
  destruct (create_session _ _ _ _ _ _ _) as [[sid f]|] eqn:Hc; [|discriminate].
  apply create_session_inv in Hc as (e & _ & -> & _). simpl.
  intros [= <-]. split; [reflexivity|]. exists secret. auto.
Qed.

(** X14. Enrolment happens once: with a secret in the secret file,
    [complete_setup] redirects to ["/login"] and changes nothing,
    whatever secret and code it is given; without one, a code that does
    not verify changes nothing either. Whenever the secret file changes,
    no secret was enrolled, the code verified and the file holds the
    submitted secret. With the empty string enrolled, [complete_setup]
    refuses as for any secret while [login] redirects to ["/setup"], so
    no session can be issued. *)
Theorem X14_enrolment_happens_once
    secret totp_code session_id t_clean t_expiry t_created a :
  let done := complete_setup sha256_hexdigest totp_verify secret totp_code session_id
                             t_clean t_expiry t_created a in
  (forall enrolled_secret,
     secrets a = SecretFile (Some enrolled_secret) ->
     done = (Served (RedirectResponse "/login" 303 None None), a)) /\
  (totp_verify secret totp_code = false -> done.2 = a) /\
  (secrets done.2 <> secrets a ->
     is_setup_complete (secrets a) = Return false /\
     totp_verify secret totp_code = true /\
     secrets done.2 = SecretFile (Some secret)) /\
  (secrets a = SecretFile (Some "") ->
     login sha256_hexdigest totp_verify domain totp_code session_id
           t_clean t_expiry t_created a
       = (Served (RedirectResponse "/setup" 303 None None), a)).
Proof.
  intros done. unfold done, complete_setup. split; [|split; [|split]].
  - intros s Hs. now rewrite Hs.
  - intros Hcode. rewrite Hcode.
    destruct (is_setup_complete (secrets a)) as [[|]|]; reflexivity.
  - destruct (is_setup_complete (secrets a)) as [[|]|] eqn:Hsetup; simpl; try done.
    destruct (totp_verify secret totp_code); simpl; [|done].
    intros _. split; [reflexivity|]. split; [reflexivity|].
    unfold start_session. simpl.
    now destruct (create_session _ _ _ _ _ _ _) as [[sid f]|].
  - intros Hs. unfold login. now rewrite Hs.
Qed.

End WithSettings.

Lemma X12_witness :
  verify_auth plain_digest (cookies_with (session_cookie "tok")) t_noon
              (mk_app (secrets enrolled) (Stored {[ "tok" := fresh_record ]}))
    = (Served (Response 200 [("X-User", "admin")]),
       mk_app (secrets enrolled) (Stored {[ "tok" := fresh_record ]})).
Proof.
  destruct (X12_login_then_forward_auth plain_digest sample_totp "circlescorner.xyz"
              "123456" "tok" t_noon t_noon t_noon enrolled
              "JBSWY3DPEHPK3PXP" t_noon_next_day t_noon)
    as (a1 & Hlogin & _ & Hauth).
  - reflexivity.
  - discriminate.
  - reflexivity.
  - discriminate.
  - reflexivity.
  - reflexivity.
  - reflexivity.
  - unfold datetime_le. vm_compute. discriminate.
  - vm_compute in Hlogin. injection Hlogin as <-. exact Hauth.
Defined.

End EndpointProps.

(* ===================================================================== *)
(** ** More on the droplet manager                                       *)
(* ===================================================================== *)

Module DropletProps.
Import Py Droplet DropletRuns Main MainRuns DropletTraces TraceSamples DropletFacts.
Local Open Scope py_scope.

(** *** Computations that leave the world alone *)

Lemma pure_ret {A} (a : A) : pure (ret a).
Proof. intros w. now eexists. Qed.

Lemma pure_lift {A} (o : outcome A) : pure (lift o).
Proof. intros w. now eexists. Qed.

Lemma pure_bind {A B} (m : M A) (k : A -> M B) :
  pure m -> (forall a, pure (k a)) -> pure (bind m k).
Proof.
  intros Hm Hk w. unfold bind. destruct (Hm w) as [[a|e] ->].
  - apply Hk.
  - now eexists.
Qed.

Lemma pure_if {A} (b : bool) (m1 m2 : M A) :
  pure m1 -> pure m2 -> pure (if b then m1 else m2).
Proof. now destruct b. Qed.

Ltac solve_pure :=
  repeat first
    [ apply pure_ret
    | apply pure_lift
    | apply pure_if
    | apply pure_bind; [|intros ?] ].

(** *** Stepping through a computation *)

Lemma bind_return {A B} (m : M A) (k : A -> M B) w a w' :
  m w = (Return a, w') -> bind m k w = k a w'.
Proof. intros H. unfold bind. now rewrite H. Qed.

Lemma bind_raise {A B} (m : M A) (k : A -> M B) w e w' :
  m w = (Raise e, w') -> bind m k w = (Raise e, w').
Proof. intros H. unfold bind. now rewrite H. Qed.

Lemma request_eq out self method endpoint payload w :
  _request out self method endpoint payload w
    = (respond out (log w)
         (Request method (Lit (base_url self) :: endpoint) (_headers self) payload),
       push w (Request method (Lit (base_url self) :: endpoint) (_headers self) payload)).
Proof. reflexivity. Qed.

(** *** The tag query *)

Lemma find_always out self w :
  exists d, _find_sandbox_droplet out self w = (Return d, push w (list_request self)).
Proof.
  unfold _find_sandbox_droplet, try_except, bind, _request, lift.
  fold (list_request self).
  destruct (respond out (log w) (list_request self)) as [data|e]; [|now eexists].
  destruct (py_get data "droplets" (JList [])) as [ds|e]; [|now eexists].
  destruct (truthy ds); [|now eexists].
  destruct (py_first ds); now eexists.
Qed.

Lemma status_always out self w :
  exists r, get_sandbox_status out self w = (r, push w (list_request self)).
Proof.
  unfold get_sandbox_status.
  destruct (find_always out self w) as [d Hd].
  rewrite (bind_return _ _ _ _ _ Hd).
  match goal with
  | |- exists r, ?m _ = _ => assert (pure m) as Hp by solve_pure
  end.
  apply Hp.
Qed.

Lemma status_when_found out self w data fields others networks size region :
  respond out (log w) (list_request self) = Return data ->
  py_get data "droplets" (JList []) = Return (JList (JDict fields :: others)) ->
  instance fields networks size region ->
  get_sandbox_status out self w
    = (Return (status_of fields networks size region), push w (list_request self)).
Proof.
  intros Hresp Hds (Hne & (netfields & Hnet & Hv4) & Hall & Hsize & Hregion).
  unfold get_sandbox_status, bind.
  rewrite (find_when_list_answers _ _ _ _ _ Hresp Hds).
  destruct fields as [|kv fields']; [done|].
  set (fs := kv :: fields') in *.
  cbn [truthy negb]. unfold lift. cbn [py_get].
  rewrite Hnet. cbn [default from_option id py_get]. rewrite Hv4.
  cbn [default from_option id py_iter].
  rewrite (extract_ips_last networks (JNull, JNull) Hall).
  rewrite Hsize, Hregion. reflexivity.
Qed.

Lemma status_when_malformed out self w d w' :
  _find_sandbox_droplet out self w = (Return d, w') ->
  truthy d = true -> ~ is_dict d ->
  get_sandbox_status out self w = (Raise (no_get d), w').
Proof.
  intros Hfind Ht Hd. unfold get_sandbox_status, bind. rewrite Hfind, Ht.
  destruct d; simpl in *; try reflexivity. now destruct Hd.
Qed.

(** X15. For an instance as the provider documents it,
    [get_sandbox_status] reports [running] true exactly when the
    provider's status is the string ["active"], and surfaces status, id
    and creation time as the provider gave them, with the slugs of size
    and region; the tag query is the only request. *)
Theorem X15_status_of_found_instance
    out self w data fields others networks size region :
  respond out (log w) (list_request self) = Return data ->
  py_get data "droplets" (JList []) = Return (JList (JDict fields :: others)) ->
  instance fields networks size region ->
  exists status,
    get_sandbox_status out self w
      = (Return (JDict status), push w (list_request self)) /\
    field "running" status = JBool (eq_str (field "status" fields) "active") /\
    (field "running" status = JBool true <-> field "status" fields = JStr "active") /\
    field "status" status = field "status" fields /\
    field "droplet_id" status = field "id" fields /\
    field "created_at" status = field "created_at" fields /\
    field "size" status = field "slug" size /\
    field "region" status = field "slug" region.
Proof.
  intros Hresp Hds Hinst. eexists.
  split; [exact (status_when_found _ _ _ _ _ _ _ _ _ Hresp Hds Hinst)|].
  repeat split; try reflexivity.
  - cbn. intros [= H]. destruct (field "status" fields); try discriminate.
    apply String.eqb_eq in H. now subst.
  - intros ->. reflexivity.
Qed.

(** X16. Whatever the provider does, [get_sandbox_status] issues the
    tag query and nothing else; [kill_sandbox] issues the tag query and
    at most one more request, a [DELETE], and never a create;
    [spawn_sandbox] issues the tag query and at most one more request,
    the create, and never a destroy. *)
Theorem X16_operations_issue_only_their_requests out self w snapshot_id size :
  events_since w (get_sandbox_status out self w).2 = [list_request self] /\
  (events_since w (kill_sandbox out self w).2 = [list_request self] \/
   exists droplet_id,
     events_since w (kill_sandbox out self w).2
       = [list_request self; destroy_request self droplet_id]) /\
  count is_create (events_since w (kill_sandbox out self w).2) = 0%nat /\
  (events_since w (spawn_sandbox out self snapshot_id size w).2 = [list_request self] \/
   events_since w (spawn_sandbox out self snapshot_id size w).2
     = [list_request self;
        create_request self (spawn_payload self snapshot_id size)]) /\
  count is_destroy (events_since w (spawn_sandbox out self snapshot_id size w).2)
    = 0%nat.
Proof.
  split.
  { destruct (status_always out self w) as [r ->]. apply events_since_push. }
  assert (events_since w (kill_sandbox out self w).2 = [list_request self] \/
          exists droplet_id,
            events_since w (kill_sandbox out self w).2
              = [list_request self; destroy_request self droplet_id]) as Hkill.
  { unfold kill_sandbox.
    destruct (find_always out self w) as [d Hd].
    rewrite (bind_return _ _ _ _ _ Hd).
    destruct (truthy d); cbn [negb].
    - destruct (py_get d "id" JNull) as [droplet_id|e] eqn:Hid.
      + rewrite (bind_return _ _ _ droplet_id (push w (list_request self))) by reflexivity.
        right. exists droplet_id.
        unfold try_except_status, bind. rewrite request_eq.
        fold (destroy_request self droplet_id).
        destruct (respond out _ _) as [a|[text msg|cls msg]];
          cbn [snd ret]; apply events_since_push2.
      + rewrite (bind_raise _ _ _ e (push w (list_request self))) by reflexivity.
        left. apply events_since_push.
    - left. apply events_since_push. }
  assert (events_since w (spawn_sandbox out self snapshot_id size w).2
            = [list_request self] \/
          events_since w (spawn_sandbox out self snapshot_id size w).2
            = [list_request self;
               create_request self (spawn_payload self snapshot_id size)]) as Hspawn.
  { unfold spawn_sandbox.
    destruct (find_always out self w) as [d Hd].
    rewrite (bind_return _ _ _ _ _ Hd).
    destruct (truthy d).
    - left. unfold bind, lift.
      destruct (py_get d "id" JNull); apply events_since_push.
    - right. unfold try_except_status, bind. rewrite request_eq.
      fold (spawn_payload self snapshot_id size).
      fold (create_request self (spawn_payload self snapshot_id size)).
      unfold lift.
      destruct (respond out _ _) as [a|[text msg|cls msg]];
        [|apply events_since_push2|apply events_since_push2].
      destruct (py_get a "droplet" (JDict [])) as [droplet|[]];
        try apply events_since_push2.
      destruct (py_get droplet "id" JNull) as [droplet_id|[]];
        apply events_since_push2. }
  split; [exact Hkill|]. split.
  { destruct Hkill as [->|[droplet_id ->]]; reflexivity. }
  split; [exact Hspawn|].
  destruct Hspawn as [->| ->]; reflexivity.
Qed.

(** X17. With an instance found, [kill_sandbox] issues exactly one
    destroy request, for the id the provider listed, and no create; it
    returns "Sandbox droplet destroyed" with that id when the provider
    answers, an error result carrying the provider's response text when
    the provider answers with an error status, and lets any other
    exception through. *)
Theorem X17_kill_existing_instance out self w data existing others :
  respond out (log w) (list_request self) = Return data ->
  py_get data "droplets" (JList []) = Return (JList (JDict existing :: others)) ->
  existing <> [] ->
  let droplet_id := field "id" existing in
  let w' := push w (list_request self) in
  let req := destroy_request self droplet_id in
  let done := kill_sandbox out self w in
  done.2 = push w' req /\
  count is_destroy (events_since w done.2) = 1%nat /\
  count is_create (events_since w done.2) = 0%nat /\
  (forall answer, respond out (log w') req = Return answer ->
                  done.1 = Return (destroyed droplet_id)) /\
  (forall text msg, respond out (log w') req = Raise (HTTPStatusError text msg) ->
                    done.1 = Return (error ("Failed to destroy droplet: " ++ text))) /\
  (forall cls msg, respond out (log w') req = Raise (OtherError cls msg) ->
                   done.1 = Raise (OtherError cls msg)).
Proof.
  intros Hresp Hds Hne droplet_id w' req done.
  pose proof (find_when_list_answers _ _ _ _ _ Hresp Hds) as Hfind.
  assert (done = (match respond out (log w') req with
                  | Return _ => Return (destroyed droplet_id)
                  | Raise (HTTPStatusError text _) =>
                      Return (error ("Failed to destroy droplet: " ++ text))
                  | Raise e => Raise e
                  end, push w' req)) as Hdone.
  { unfold done, kill_sandbox. rewrite (bind_return _ _ _ _ _ Hfind).
    destruct existing as [|kv rest]; [done|]. cbn [truthy negb].
    rewrite (bind_return _ _ _ droplet_id w') by reflexivity.
    unfold try_except_status, bind. rewrite request_eq.
    fold (destroy_request self droplet_id). fold req.
    now destruct (respond out (log w') req) as [a|[text msg|cls msg]]. }
  rewrite Hdone. cbn [fst snd]. unfold w'. rewrite events_since_push2.
  split; [reflexivity|]. split; [reflexivity|]. split; [reflexivity|].
  fold w'. repeat split; intros; now rewrite H.
Qed.

(** X18. With no instance found (the tag query fails or lists nothing),
    [apply_network_config] returns "Sandbox not running" after the tag
    query alone: it contacts no address. *)
Theorem X18_apply_without_sandbox out self w config :
  (exists e, respond out (log w) (list_request self) = Raise e) \/
  (exists data, respond out (log w) (list_request self) = Return data /\
                py_get data "droplets" (JList []) = Return (JList [])) ->
  apply_network_config out self config w
    = (Return (error "Sandbox not running"), push w (list_request self)) /\
  count is_agent_post (events_since w (apply_network_config out self config w).2)
    = 0%nat.
Proof.
  intros H.
  assert (_find_sandbox_droplet out self w
          = (Return JNull, push w (list_request self))) as Hfind.
  { destruct H as [[e He]|(data & Hd & Hds)].
    - now apply (find_when_list_raises _ _ _ e).
    - exact (find_when_list_answers _ _ _ _ _ Hd Hds). }
  assert (apply_network_config out self config w
          = (Return (error "Sandbox not running"), push w (list_request self))) as Happly.
  { unfold apply_network_config.
    rewrite (bind_return _ _ _ _ _ (status_when_not_found _ _ _ _ _ Hfind eq_refl)).
    reflexivity. }
  split; [exact Happly|]. rewrite Happly. cbn [snd].
  now rewrite events_since_push.
Qed.

(** X19. With an instance found, [apply_network_config] contacts the
    agent only when the status is ["active"] and a private address is
    known: otherwise it returns "Sandbox not running" or "No private IP
    for sandbox" after the tag query alone. When it does, it posts the
    configuration once, to port 9999 of the private address with a
    timeout of 30, and returns the agent's answer as it is; whatever the
    post raises becomes an error result with the exception's text. *)
Theorem X19_apply_to_found_instance
    out self w config data fields others networks size region :
  respond out (log w) (list_request self) = Return data ->
  py_get data "droplets" (JList []) = Return (JList (JDict fields :: others)) ->
  instance fields networks size region ->
  let active := eq_str (field "status" fields) "active" in
  let private_ip := last_ip "private" JNull networks in
  let w' := push w (list_request self) in
  let post := agent_post private_ip config in
  let done := apply_network_config out self config w in
  (active = false -> done = (Return (error "Sandbox not running"), w')) /\
  (active = true -> truthy private_ip = false ->
     done = (Return (error "No private IP for sandbox"), w')) /\
  (active = true -> truthy private_ip = true ->
     done = (match respond out (log w') post with
             | Return answer => Return answer
             | Raise e => Return (error (str_exn e))
             end, push w' post)).
Proof.
  intros Hresp Hds Hinst active private_ip w' post done.
  pose proof (status_when_found _ _ _ _ _ _ _ _ _ Hresp Hds Hinst) as Hstatus.
  unfold done, apply_network_config.
  rewrite (bind_return _ _ _ _ _ Hstatus).
  unfold status_of.
  rewrite (bind_return _ _ _ (JBool active) w') by reflexivity.
  cbn [truthy]. fold active.
  split; [|split].
  - intros ->. reflexivity.
  - intros -> Hip. cbn [negb].
    rewrite (bind_return _ _ _ private_ip w') by reflexivity.
    now rewrite Hip.
  - intros -> Hip. cbn [negb].
    rewrite (bind_return _ _ _ private_ip w') by reflexivity.
    rewrite Hip. cbn [negb]. unfold try_except, post, agent_post.
    now destruct (respond out (log w') _).
Qed.

(** *** The snapshot build *)

Ltac flatten_log :=
  cbn [log network_config_file]; try rewrite <- !app_assoc; cbn [app].

Lemma build_never_raises out self w :
  exists r w', build_sandbox_snapshot out self w = (Return r, w').
Proof.
  unfold build_sandbox_snapshot, try_except.
  match goal with
  | |- context [match ?m w with _ => _ end] => destruct (m w) as [[a|e] w']
  end; now eexists; eexists.
Qed.

(** A build that got its builder, up to the destroy request. *)
Lemma build_run out self w data droplet a1 a2 listing snaps :
  let droplet_id := field "id" droplet in
  let create := create_request self (builder_payload self) in
  let t := loop_time out (log w ++ [create; Sleep 60;
                                    shutdown_request self droplet_id; Sleep 30]) in
  let steps := build_steps self droplet_id t in
  respond out (log w) create = Return data ->
  py_get data "droplet" (JDict []) = Return (JDict droplet) ->
  truthy droplet_id = true ->
  respond out (log w ++ take 2 steps) (shutdown_request self droplet_id) = Return a1 ->
  respond out (log w ++ take 5 steps) (snapshot_request self droplet_id t) = Return a2 ->
  respond out (log w ++ take 7 steps) (snapshots_request self droplet_id)
    = Return listing ->
  py_get listing "snapshots" (JList []) = Return (JList snaps) ->
  build_sandbox_snapshot out self w
    = (match respond out (log w ++ steps) (destroy_request self droplet_id) with
       | Raise e => Return (error (str_exn e))
       | Return _ =>
           match last snaps with
           | None => Return (error "Snapshot not found")
           | Some newest =>
               match py_get newest "id" JNull with
               | Return snapshot_id => Return (snapshot_created snapshot_id)
               | Raise e => Return (error (str_exn e))
               end
           end
       end,
       pushes w (steps ++ [destroy_request self droplet_id])).
Proof.
  intros droplet_id create t steps Hc Hd Hid Hs Hsn Hl Hsl.
  unfold steps, build_steps in *. cbn [take] in *. unfold t in *. clear t steps.
  unfold create, create_request, builder_payload, shutdown_request, snapshot_request,
    snapshots_request, action_request, destroy_request in *.
  unfold build_sandbox_snapshot, try_except, bind, _request, lift, sleep, emit,
    get_loop_time, ret, pushes.
  cbn [log network_config_file].
  rewrite Hc, Hd. cbn [py_get]. fold (field "id" droplet). fold droplet_id.
  rewrite Hid. cbn [negb].
  flatten_log. rewrite Hs.
  flatten_log. rewrite Hsn.
  flatten_log. rewrite Hl, Hsl.
  flatten_log.
  match goal with
  | |- context [respond out ?h (Request "DELETE" ?u ?hd ?pl)] =>
      destruct (respond out h (Request "DELETE" u hd pl)) as [a3|e]
  end; [|reflexivity].
  destruct snaps as [|s0 rest]; [reflexivity|].
  cbn [truthy py_last].
  destruct (last (s0 :: rest)) as [newest|] eqn:Hlast;
    [|apply last_None in Hlast; discriminate].
  destruct (py_get newest "id" JNull); reflexivity.
Qed.

(** X20. Whatever the provider does, [build_sandbox_snapshot] raises
    nothing: it returns either the "Snapshot created successfully"
    result or an error result. It always issues the builder's create
    request, exactly once, and at most one destroy request. *)
Theorem X20_build_always_returns out self w :
  let done := build_sandbox_snapshot out self w in
  (exists r, done.1 = Return r /\
             ((exists message, r = error message) \/
              (exists snapshot_id, r = snapshot_created snapshot_id))) /\
  count is_create (events_since w done.2) = 1%nat /\
  (count is_destroy (events_since w done.2) <= 1)%nat.
Proof.
  intros done. unfold done.
  unfold build_sandbox_snapshot, try_except, bind, _request, lift, sleep, emit,
    get_loop_time, ret, events_since.
  cbn [log network_config_file].
  repeat case_match; simplify_eq; cbn [fst snd log];
    (split; [eexists; split; [reflexivity|];
             first [left; eexists; reflexivity | right; eexists; reflexivity]|]);
    try rewrite <- !app_assoc; rewrite drop_app_length;
    (split; [reflexivity|cbv; lia]).
Qed.

(** X21. When the provider answers every step, the build runs create,
    a wait of 60, shutdown, a wait of 30, snapshot (named after the loop
    time), a wait of 120, the snapshot listing and the destroy of the
    builder, in this order, and returns the id of the last snapshot
    listed; when none is listed it returns "Snapshot not found", having
    destroyed the builder all the same. *)
Theorem X21_build_runs_to_the_end out self w data droplet a1 a2 listing snaps a3 :
  let droplet_id := field "id" droplet in
  let create := create_request self (builder_payload self) in
  let t := loop_time out (log w ++ [create; Sleep 60;
                                    shutdown_request self droplet_id; Sleep 30]) in
  let steps := build_steps self droplet_id t in
  let done := build_sandbox_snapshot out self w in
  respond out (log w) create = Return data ->
  py_get data "droplet" (JDict []) = Return (JDict droplet) ->
  truthy droplet_id = true ->
  respond out (log w ++ take 2 steps) (shutdown_request self droplet_id) = Return a1 ->
  respond out (log w ++ take 5 steps) (snapshot_request self droplet_id t) = Return a2 ->
  respond out (log w ++ take 7 steps) (snapshots_request self droplet_id)
    = Return listing ->
  py_get listing "snapshots" (JList []) = Return (JList snaps) ->
  respond out (log w ++ steps) (destroy_request self droplet_id) = Return a3 ->
  events_since w done.2 = (steps ++ [destroy_request self droplet_id])%list /\
  (snaps = [] -> done.1 = Return (error "Snapshot not found")) /\
  (forall earlier newest,
     snaps = (earlier ++ [JDict newest])%list ->
     done.1 = Return (snapshot_created (field "id" newest))).
Proof.
  intros droplet_id create t steps done Hc Hd Hid Hs Hsn Hl Hsl Hdel.
  unfold done.
  rewrite (build_run _ _ _ _ _ _ _ _ _ Hc Hd Hid Hs Hsn Hl Hsl).
  fold droplet_id create t steps. rewrite Hdel. cbn [fst snd]. split.
  - unfold events_since, pushes. cbn [log]. apply drop_app_length.
  - split.
    + intros ->. reflexivity.
    + intros earlier newest ->. now rewrite last_snoc.
Qed.

(** X22. When the answer to the create request carries no usable id
    (no droplet, no id, a null or zero id), the build stops there with
    "Failed to create builder droplet": the create request is the only
    event, so nothing is shut down, snapshotted or destroyed. *)
Theorem X22_build_without_builder_id out self w data droplet droplet_id :
  respond out (log w) (create_request self (builder_payload self)) = Return data ->
  py_get data "droplet" (JDict []) = Return droplet ->
  py_get droplet "id" JNull = Return droplet_id ->
  truthy droplet_id = false ->
  build_sandbox_snapshot out self w
    = (Return (error "Failed to create builder droplet"),
       push w (create_request self (builder_payload self))).
Proof.
  intros Hc Hd Hid Ht.
  unfold create_request, builder_payload in *.
  unfold build_sandbox_snapshot, try_except, bind, _request, lift, ret.
  now rewrite Hc, Hd, Hid, Ht.
Qed.

(** X23. When the destroy request fails after the snapshots were
    listed, the build returns an error result with the exception's text
    and no snapshot id, also when a snapshot was listed. *)
Theorem X23_failed_destroy_hides_the_snapshot
    out self w data droplet a1 a2 listing snaps e :
  let droplet_id := field "id" droplet in
  let create := create_request self (builder_payload self) in
  let t := loop_time out (log w ++ [create; Sleep 60;
                                    shutdown_request self droplet_id; Sleep 30]) in
  let steps := build_steps self droplet_id t in
  let done := build_sandbox_snapshot out self w in
  respond out (log w) create = Return data ->
  py_get data "droplet" (JDict []) = Return (JDict droplet) ->
  truthy droplet_id = true ->
  respond out (log w ++ take 2 steps) (shutdown_request self droplet_id) = Return a1 ->
  respond out (log w ++ take 5 steps) (snapshot_request self droplet_id t) = Return a2 ->
  respond out (log w ++ take 7 steps) (snapshots_request self droplet_id)
    = Return listing ->
  py_get listing "snapshots" (JList []) = Return (JList snaps) ->
  respond out (log w ++ steps) (destroy_request self droplet_id) = Raise e ->
  done.1 = Return (error (str_exn e)) /\
  py_get (error (str_exn e)) "snapshot_id" JNull = Return JNull /\
  count is_destroy (events_since w done.2) = 1%nat.
Proof.
  intros droplet_id create t steps done Hc Hd Hid Hs Hsn Hl Hsl Hdel.
  unfold done.
  rewrite (build_run _ _ _ _ _ _ _ _ _ Hc Hd Hid Hs Hsn Hl Hsl).
  fold droplet_id create t steps. rewrite Hdel. cbn [fst snd].
  split; [reflexivity|]. split; [reflexivity|].
  unfold events_since, pushes. cbn [log]. now rewrite drop_app_length.
Qed.

(** X24. The guard of [spawn_sandbox] rests on what the provider lists:
    after a first spawn on an empty listing, a second spawn returns
    "Sandbox already running", with the id listed, when the provider
    lists an instance by then, so one create request was issued in all;
    when the provider still lists nothing, the second spawn issues a
    second create request. *)
Theorem X24_spawn_twice out self w data1 snapshot_id size :
  respond out (log w) (list_request self) = Return data1 ->
  py_get data1 "droplets" (JList []) = Return (JList []) ->
  let create := create_request self (spawn_payload self snapshot_id size) in
  let w2 := push (push w (list_request self)) create in
  let second := spawn_sandbox out self snapshot_id size
                  (spawn_sandbox out self snapshot_id size w).2 in
  (forall data2 existing others,
     respond out (log w2) (list_request self) = Return data2 ->
     py_get data2 "droplets" (JList []) = Return (JList (JDict existing :: others)) ->
     existing <> [] ->
     second.1 = Return (already_running (field "id" existing)) /\
     count is_create (events_since w second.2) = 1%nat) /\
  (forall data2,
     respond out (log w2) (list_request self) = Return data2 ->
     py_get data2 "droplets" (JList []) = Return (JList []) ->
     count is_create (events_since w second.2) = 2%nat).
Proof.
  intros Hresp Hds create w2 second.
  pose proof (find_when_list_answers _ _ _ _ _ Hresp Hds) as Hfind.
  pose proof (spawn_when_not_found _ _ _ _ _ snapshot_id size Hfind eq_refl) as Hfirst.
  cbn zeta in Hfirst. fold create w2 in Hfirst.
  unfold second. rewrite Hfirst. cbn [snd]. split.
  - intros data2 existing others Hresp2 Hds2 Hne.
    pose proof (find_when_list_answers _ _ _ _ _ Hresp2 Hds2) as Hfind2.
    rewrite (spawn_when_found _ _ _ _ _ snapshot_id size Hfind2 Hne).
    cbn [fst snd]. split; [reflexivity|].
    unfold events_since, w2, push. cbn [log].
    rewrite <- !app_assoc. now rewrite drop_app_length.
  - intros data2 Hresp2 Hds2.
    pose proof (find_when_list_answers _ _ _ _ _ Hresp2 Hds2) as Hfind2.
    rewrite (spawn_when_not_found _ _ _ _ _ snapshot_id size Hfind2 eq_refl).
    cbn [fst snd]. unfold events_since, w2, push. cbn [log].
    rewrite <- !app_assoc. now rewrite drop_app_length.
Qed.

(** X25. When the first entry the provider lists is no object but still
    counts as true (a non-empty string or list, a non-zero number), the
    [AttributeError] of the first [.get] on it escapes
    [get_sandbox_status], [spawn_sandbox] and [kill_sandbox] alike, after
    the tag query alone. *)
Theorem X25_malformed_instance_escapes out self w data d others snapshot_id size :
  respond out (log w) (list_request self) = Return data ->
  py_get data "droplets" (JList []) = Return (JList (d :: others)) ->
  truthy d = true ->
  ~ is_dict d ->
  let w' := push w (list_request self) in
  get_sandbox_status out self w = (Raise (no_get d), w') /\
  spawn_sandbox out self snapshot_id size w = (Raise (no_get d), w') /\
  kill_sandbox out self w = (Raise (no_get d), w').
Proof.
  intros Hresp Hds Ht Hd w'.
  pose proof (find_when_list_answers _ _ _ _ _ Hresp Hds) as Hfind.
  split; [now apply status_when_malformed|].
  unfold spawn_sandbox, kill_sandbox.
  rewrite !(bind_return _ _ _ _ _ Hfind). rewrite Ht. cbn [negb].
  destruct d; simpl in *; try discriminate; try (split; reflexivity).
  now destruct Hd.
Qed.

(** *** The network-config endpoint *)

Lemma apply_always out self config w :
  exists r,
    apply_network_config out self config w = (r, push w (list_request self)) \/
    exists private_ip,
      apply_network_config out self config w
        = (r, push (push w (list_request self)) (agent_post private_ip config)).
Proof.
  unfold apply_network_config.
  destruct (status_always out self w) as [[status|e] Hs].
  2:{ rewrite (bind_raise _ _ _ _ _ Hs). eexists. now left. }
  rewrite (bind_return _ _ _ _ _ Hs).
  destruct (py_get status "running" JNull) as [running|e] eqn:Hr.
  2:{ rewrite (bind_raise _ _ _ e (push w (list_request self))) by reflexivity.
      eexists. now left. }
  rewrite (bind_return _ _ _ running (push w (list_request self))) by reflexivity.
  destruct (truthy running); cbn [negb]; [|eexists; now left].
  destruct (py_get status "private_ip" JNull) as [private_ip|e] eqn:Hp.
  2:{ rewrite (bind_raise _ _ _ e (push w (list_request self))) by reflexivity.
      eexists. now left. }
  rewrite (bind_return _ _ _ private_ip (push w (list_request self))) by reflexivity.
  destruct (truthy private_ip); cbn [negb]; [|eexists; now left].
  unfold try_except.
  destruct (respond out _ _); eexists; right; exists private_ip; reflexivity.
Qed.

Lemma keeps_file_after_save out mgr config :
  keeps_file
    (bind (get_sandbox_status out mgr)
       (fun status =>
          bind (lift (py_get status "running" JNull))
            (fun running =>
               bind (if truthy running
                     then bind (apply_network_config out mgr (model_dump config))
                               (fun _ => ret tt)
                     else ret tt)
                    (fun _ => ret (JDict [ ("status", JStr "ok");
                                           ("config", model_dump config) ]))))).
Proof.
  apply keeps_file_bind; [apply keeps_file_status|intros status].
  apply keeps_file_bind; [apply keeps_file_lift|intros running].
  apply keeps_file_bind; [|intros ?; apply keeps_file_ret].
  apply keeps_file_if; [|apply keeps_file_ret].
  apply keeps_file_bind; [apply keeps_file_apply|intros ?; apply keeps_file_ret].
Qed.

(** X26. [update_network_config] writes the submitted configuration
    before anything else, so the file holds it however the call ends,
    also when an exception escapes, and [get_network_config] then
    returns it; whenever the call returns, it returns "ok" with the
    configuration, whatever the provider and the agent answered. *)
Theorem X26_update_always_persists out mgr config w :
  let done := update_network_config out mgr config w in
  network_config_file done.2 = Some (model_dump config) /\
  get_network_config done.2 = (Return (model_dump config), done.2) /\
  (forall r, done.1 = Return r -> r = ok_with (model_dump config)) /\
  (exists rest,
     events_since w done.2 = SaveNetworkConfig (model_dump config) :: rest).
Proof.
  intros done.
  assert (network_config_file done.2 = Some (model_dump config)) as Hfile.
  { unfold done, update_network_config.
    rewrite (bind_return _ _ _ tt
               (mk_world (log w ++ [SaveNetworkConfig (model_dump config)])
                         (Some (model_dump config)))) by reflexivity.
    match goal with
    | |- network_config_file (?m ?w0).2 = _ =>
        destruct (m w0) as [r w'] eqn:Hrun
    end.
    now apply keeps_file_after_save in Hrun. }
  split; [exact Hfile|]. split.
  { unfold get_network_config. now rewrite Hfile. }
  split.
  { intros r Hr. destruct done as [r0 w'] eqn:Hdone. cbn [fst] in Hr. subst r0.
    now apply MainFacts.update_network_config_result in Hdone as [-> _]. }
  unfold done, update_network_config.
  rewrite (bind_return _ _ _ tt
             (mk_world (log w ++ [SaveNetworkConfig (model_dump config)])
                       (Some (model_dump config)))) by reflexivity.
  set (ws := mk_world _ _).
  destruct (status_always out mgr ws) as [[status|e] Hs].
  2:{ rewrite (bind_raise _ _ _ _ _ Hs). eexists.
      unfold events_since, push, ws. cbn [snd log].
      rewrite <- app_assoc. now rewrite drop_app_length. }
  rewrite (bind_return _ _ _ _ _ Hs).
  destruct (py_get status "running" JNull) as [running|e] eqn:Hr.
  2:{ rewrite (bind_raise _ _ _ e (push ws (list_request mgr))) by reflexivity.
      eexists. unfold events_since, push, ws. cbn [snd log].
      rewrite <- app_assoc. now rewrite drop_app_length. }
  rewrite (bind_return _ _ _ running (push ws (list_request mgr))) by reflexivity.
  destruct (truthy running).
  2:{ eexists. unfold events_since, push, ws, bind, ret. cbn [snd log].
      rewrite <- app_assoc. now rewrite drop_app_length. }
  destruct (apply_always out mgr (model_dump config) (push ws (list_request mgr)))
    as [r [Ha|[ip Ha]]]; unfold bind at 1; unfold bind at 1; rewrite Ha;
    destruct r; eexists; unfold events_since, push, ws, ret; cbn [snd log];
    rewrite <- !app_assoc; now rewrite drop_app_length.
Qed.


(** *** The properties at sample providers *)

Lemma X15_witness :
  exists status,
    get_sandbox_status lists_new sample_manager start
      = (Return (JDict status), push start (list_request sample_manager)) /\
    field "running" status = JBool false /\
    field "status" status = JStr "new".
Proof.
  destruct (X15_status_of_found_instance lists_new sample_manager start
              (droplets [JDict new_fields]) new_fields [] sample_networks
              sample_size sample_region)
    as (status & Hrun & Hrunning & _ & Hstatus & _).
  - reflexivity.
  - reflexivity.
  - repeat split; try discriminate; try reflexivity.
    + eexists. split; reflexivity.
    + repeat constructor.
  - exists status. auto.
Defined.

Lemma X17_witness :
  (kill_sandbox lists_active sample_manager start).1 = Return (destroyed (JInt 4242)).
Proof.
  refine (proj1 (proj2 (proj2 (proj2 (X17_kill_existing_instance lists_active
            sample_manager start (droplets [JDict active_fields]) active_fields []
            _ _ _)))) (JDict []) _).
  - reflexivity.
  - reflexivity.
  - discriminate.
  - reflexivity.
Defined.

Lemma X18_witness :
  apply_network_config (scripted []) sample_manager sample_config start
    = (Return (error "Sandbox not running"), push start (list_request sample_manager)).
Proof.
  refine (proj1 (X18_apply_without_sandbox (scripted []) sample_manager start
                   sample_config _)).
  left. exists connect_error. reflexivity.
Defined.

Lemma X19_witness :
  apply_network_config lists_new sample_manager sample_config start
    = (Return (error "Sandbox not running"), push start (list_request sample_manager)).
Proof.
  refine (proj1 (X19_apply_to_found_instance lists_new sample_manager start
            sample_config (droplets [JDict new_fields]) new_fields []
            sample_networks sample_size sample_region _ _ _) _).
  - reflexivity.
  - reflexivity.
  - repeat split; try discriminate; try reflexivity.
    + eexists. split; reflexivity.
    + repeat constructor.
  - reflexivity.
Defined.

Lemma X21_witness :
  (build_sandbox_snapshot full_build sample_manager start).1
    = Return (snapshot_created (JInt 901)).
Proof.
  refine (proj2 (proj2 (X21_build_runs_to_the_end full_build sample_manager start
            builder_answer builder_fields action_answer action_answer
            listing_answer listed_snapshots (JDict []) _ _ _ _ _ _ _ _))
          [ JDict [ ("id", JInt 900) ] ] [ ("id", JInt 901) ] _);
    reflexivity.
Defined.

Lemma X22_witness :
  build_sandbox_snapshot no_builder_id sample_manager start
    = (Return (error "Failed to create builder droplet"),
       push start (create_request sample_manager (builder_payload sample_manager))).
Proof.
  refine (X22_build_without_builder_id no_builder_id sample_manager start
            (JDict [ ("droplet", JDict [ ("name", JStr "sandbox-builder") ]) ])
            (JDict [ ("name", JStr "sandbox-builder") ]) JNull _ _ _ _);
    reflexivity.
Defined.

Lemma X23_witness :
  (build_sandbox_snapshot destroy_fails sample_manager start).1
    = Return (error "Server error '503 Service Unavailable'").
Proof.
  refine (proj1 (X23_failed_destroy_hides_the_snapshot destroy_fails sample_manager
            start builder_answer builder_fields action_answer action_answer
            listing_answer listed_snapshots served_unavailable _ _ _ _ _ _ _ _));
    reflexivity.
Defined.

Lemma X24_witness :
  (spawn_sandbox lists_nothing_then_active sample_manager "snap-1" "s-2vcpu-2gb"
     (spawn_sandbox lists_nothing_then_active sample_manager
                    "snap-1" "s-2vcpu-2gb" start).2).1
    = Return (already_running (JInt 4242)).
Proof.
  refine (proj1 (proj1 (X24_spawn_twice lists_nothing_then_active sample_manager
            start (droplets []) "snap-1" "s-2vcpu-2gb" _ _)
          (droplets [JDict active_fields]) active_fields [] _ _ _)).
  - reflexivity.
  - reflexivity.
  - reflexivity.
  - reflexivity.
  - discriminate.
Defined.

Lemma X25_witness :
  get_sandbox_status lists_a_string sample_manager start
    = (Raise (no_get (JStr "sandbox")), push start (list_request sample_manager)).
Proof.
  refine (proj1 (X25_malformed_instance_escapes lists_a_string sample_manager start
            (droplets [JStr "sandbox"]) (JStr "sandbox") []
            "snap-1" "s-2vcpu-2gb" _ _ _ _)).
  - reflexivity.
  - reflexivity.
  - reflexivity.
  - intros H. exact H.
Defined.

End DropletProps.
